(** * Daily-Gratitude-Journal-Streamlit: a shallow embedding of [app.py]
    and [send_reminders.py], and the properties of its specification. *)

From Stdlib Require Import String Ascii List Bool ZArith Lia Sorted Permutation.
Import ListNotations.
Open Scope string_scope.

(* ================================================================== *)
(** ** Python's [re.match] on the pattern of [is_valid_email]          *)
(* ================================================================== *)

Module Regex.

(** A pattern is a sequence of atoms; each atom is a character class
    matched once ([[...]] or an escaped literal) or one-or-more times
    ([[...]+]).  This is all that [r"[^@]+@[^@]+\.[^@]+"] uses. *)
Inductive atom :=
| AOne (p : ascii -> bool)
| APlus (p : ascii -> bool).

(** [re.match] anchors the match at the start of the string only: it
    succeeds when some prefix of the subject matches the pattern.  The
    backtracking engine tries the longer repetition first. *)
Fixpoint match_prefix (pat : list atom) (s : list ascii) {struct s} : bool :=
  match pat with
  | [] => true
  | AOne p :: rest =>
      match s with
      | [] => false
      | c :: s' => p c && match_prefix rest s'
      end
  | APlus p :: rest =>
      match s with
      | [] => false
      | c :: s' => p c && (match_prefix (APlus p :: rest) s' || match_prefix rest s')
      end
  end.

(** Full-match semantics of a pattern on a string. *)
Inductive matches : list atom -> list ascii -> Prop :=
| m_nil : matches [] []
| m_one p c rest s :
    p c = true -> matches rest s -> matches (AOne p :: rest) (c :: s)
| m_plus_more p c rest s :
    p c = true -> matches (APlus p :: rest) s -> matches (APlus p :: rest) (c :: s)
| m_plus_last p c rest s :
    p c = true -> matches rest s -> matches (APlus p :: rest) (c :: s).

Definition at_sign : ascii := "@"%char.
Definition dot : ascii := "."%char.

(** [[^@]]: any character but ['@']; [@]; [\.]: the literal dot. *)
Definition not_at (c : ascii) : bool := negb (Ascii.eqb c at_sign).
Definition is_at (c : ascii) : bool := Ascii.eqb c at_sign.
Definition is_dot (c : ascii) : bool := Ascii.eqb c dot.

(** [r"[^@]+@[^@]+\.[^@]+"] *)
Definition email_pattern : list atom :=
  [APlus not_at; AOne is_at; APlus not_at; AOne is_dot; APlus not_at].

End Regex.

(* ================================================================== *)
(** ** Python's [datetime.date] and [get_week_start]                   *)
(* ================================================================== *)

Module Dates.

Local Open Scope Z_scope.

(** A [datetime.date] is represented by its proleptic Gregorian ordinal
    ([date.toordinal()]): 0001-01-01 has ordinal 1, and [date] only
    admits ordinals in [1 .. _MAXORDINAL]. *)
Definition date := Z.

Definition MAXORDINAL : Z := 3652059.

Definition valid_date (d : date) : Prop := 1 <= d <= MAXORDINAL.

Definition is_leap (y : Z) : bool :=
  (Z.eqb (y mod 4) 0 && negb (Z.eqb (y mod 100) 0)) || Z.eqb (y mod 400) 0.

(** [_DAYS_IN_MONTH] (index 1..12), without the leap day. *)
Definition days_in_month_table (m : Z) : Z :=
  match m with
  | 1 => 31 | 2 => 28 | 3 => 31 | 4 => 30
  | 5 => 31 | 6 => 30 | 7 => 31 | 8 => 31 | 9 => 30 | 10 => 31
  | 11 => 30 | _ => 31
  end%Z.

(** [_DAYS_BEFORE_MONTH] (index 1..12), without the leap day. *)
Definition days_before_month_table (m : Z) : Z :=
  match m with
  | 1 => 0 | 2 => 31 | 3 => 59 | 4 => 90 | 5 => 120 | 6 => 151
  | 7 => 181 | 8 => 212 | 9 => 243 | 10 => 273 | 11 => 304 | _ => 334
  end%Z.

Definition days_before_year (y : Z) : Z :=
  let y := y - 1 in y * 365 + y / 4 - y / 100 + y / 400.

Definition days_before_month (y m : Z) : Z :=
  days_before_month_table m + (if (2 <? m) && is_leap y then 1 else 0).

(** [_ymd2ord]: [date(y, m, d).toordinal()]. *)
Definition ymd2ord (y m d : Z) : date :=
  days_before_year y + days_before_month y m + d.

(** [date.isoweekday]: [self.toordinal() % 7 or 7]. *)
Definition isoweekday (d : date) : Z :=
  let r := d mod 7 in if Z.eqb r 0 then 7 else r.

(** [d + timedelta(days=k)]: [o = self.toordinal() + other.days]; the
    result is [fromordinal(o)] when [0 < o <= _MAXORDINAL], otherwise
    [OverflowError] (here [None]).  [d - timedelta(days=k)] is
    [d + timedelta(-k)]. *)
Definition date_add_days (d : date) (k : Z) : option date :=
  let o := d + k in
  if (0 <? o) && (o <=? MAXORDINAL) then Some o else None.

Definition date_sub_days (d : date) (k : Z) : option date :=
  date_add_days d (- k).

(** The date computed by [get_week_start]:
    [start_of_week = d - timedelta(days=d.isoweekday() - 1)]. *)
Definition week_start (d : date) : option date :=
  date_sub_days d (isoweekday d - 1).

(** [_ord2ymd]: the (year, month, day) of an ordinal. *)
Definition ord2ymd (n : date) : Z * Z * Z :=
  let n := n - 1 in
  let n400 := n / 146097 in let n := n mod 146097 in
  let year := n400 * 400 + 1 in
  let n100 := n / 36524 in let n := n mod 36524 in
  let n4 := n / 1461 in let n := n mod 1461 in
  let n1 := n / 365 in let n := n mod 365 in
  let year := year + n100 * 100 + n4 * 4 + n1 in
  if (n1 =? 4) || (n100 =? 4) then (year - 1, 12, 31) else
  let leapyear := (n1 =? 3) && (negb (n4 =? 24) || (n100 =? 3)) in
  let month := Z.shiftr (n + 50) 5 in
  let preceding := days_before_month_table month
                   + (if (2 <? month) && leapyear then 1 else 0) in
  let '(month, preceding) :=
    if n <? preceding
    then (month - 1, preceding - (days_in_month_table (month - 1)
                                  + (if (month - 1 =? 2) && leapyear then 1 else 0)))
    else (month, preceding) in
  (year, month, n - preceding + 1).

(** Zero-padded decimal rendering ([%02d], [%04d]) of a non-negative
    number. *)
Fixpoint digits (width : nat) (n : Z) : string :=
  match width with
  | O => ""
  | S w => digits w (n / 10) ++ String (ascii_of_nat (48 + Z.to_nat (n mod 10))) ""
  end.

(** [date.isoformat()]: ["%04d-%02d-%02d"]. *)
Definition isoformat (d : date) : string :=
  let '(y, m, dd) := ord2ymd d in
  digits 4 y ++ "-" ++ digits 2 m ++ "-" ++ digits 2 dd.

(** [get_week_start(d)]: [start_of_week.isoformat()]. *)
Definition get_week_start (d : date) : option string :=
  option_map isoformat (week_start d).

End Dates.

(* ================================================================== *)
(** ** [app.py]: the Streamlit journal                                 *)
(* ================================================================== *)

Module App.

(** *** Backend rows, tables and requests *)

(** A row as the Supabase client exchanges it: a JSON object from
    column names to text values. *)
Definition dict := list (string * string).

Fixpoint dget (k : string) (d : dict) : option string :=
  match d with
  | [] => None
  | (k', v) :: d' => if String.eqb k k' then Some v else dget k d'
  end.

Definition DAILY_TABLE := "daily_gratitude".
Definition WEEKLY_TABLE := "weekly_letters".
Definition USERS_TABLE := "user_data".

(** The hosted backend: the rows of the three tables, and whether a
    select or an insert request currently succeeds (when it does not,
    the client call raises). *)
Record backend := {
  users : list dict;
  daily : list dict;
  weekly : list dict;
  read_ok : bool;
  write_ok : bool
}.

Definition table_rows (b : backend) (t : string) : list dict :=
  if String.eqb t USERS_TABLE then users b
  else if String.eqb t DAILY_TABLE then daily b
  else if String.eqb t WEEKLY_TABLE then weekly b
  else [].

(** [insert(row)] appends one row. *)
Definition table_insert (b : backend) (t : string) (r : dict) : backend :=
  if String.eqb t USERS_TABLE then
    {| users := users b ++ [r]; daily := daily b; weekly := weekly b;
       read_ok := read_ok b; write_ok := write_ok b |}
  else if String.eqb t DAILY_TABLE then
    {| users := users b; daily := daily b ++ [r]; weekly := weekly b;
       read_ok := read_ok b; write_ok := write_ok b |}
  else if String.eqb t WEEKLY_TABLE then
    {| users := users b; daily := daily b; weekly := weekly b ++ [r];
       read_ok := read_ok b; write_ok := write_ok b |}
  else b.

(** Every request the app sends to the backend, successful or not. *)
Inductive call :=
| CSelect (table : string) (eq_filter : option (string * string))
| CInsert (table : string) (row : dict).

(** *** pandas DataFrames *)

(** [pd.DataFrame(response.data)] of a list of rows that all carry the
    same keys ([select("*")]): its columns are the keys of the rows, and
    an empty list gives a frame with no column at all. *)
Record dataframe := { df_cols : list string; df_rows : list dict }.

Definition DataFrame (rs : list dict) : dataframe :=
  {| df_cols := match rs with [] => [] | r :: _ => map fst r end;
     df_rows := rs |}.

Definition df_empty (df : dataframe) : bool :=
  match df_rows df with [] => true | _ => false end.

(** [df.drop(columns=[c], errors='ignore')] *)
Definition drop_column (c : string) (df : dataframe) : dataframe :=
  {| df_cols := filter (fun c' => negb (String.eqb c c')) (df_cols df);
     df_rows := map (filter (fun kv => negb (String.eqb c (fst kv)))) (df_rows df) |}.

(** [df[c]]: the values of one column. *)
Definition column (c : string) (df : dataframe) : list string :=
  flat_map (fun r => match dget c r with Some v => [v] | None => [] end) (df_rows df).

(** [.unique()]: first occurrences, in order. *)
Fixpoint unique (l : list string) : list string :=
  match l with
  | [] => []
  | x :: l' => x :: filter (fun y => negb (String.eqb x y)) (unique l')
  end.

(** [sorted(l, reverse=True)] on strings (code-point order). *)
Fixpoint insert_desc (x : string) (l : list string) : list string :=
  match l with
  | [] => [x]
  | y :: l' => if String.leb y x then x :: l else y :: insert_desc x l'
  end.

Definition sorted_desc (l : list string) : list string :=
  fold_right insert_desc [] l.

(** *** Session state, read cache and the script monad *)

(** Keys of [st.cache_data]: the decorated function and its arguments. *)
Inductive cache_key :=
| KAll (table : string)                      (* load_all_data(table) *)
| KUser (table : string) (user_id : string). (* load_user_data(table, user_id) *)

Definition cache_key_eqb (k1 k2 : cache_key) : bool :=
  match k1, k2 with
  | KAll t1, KAll t2 => String.eqb t1 t2
  | KUser t1 u1, KUser t2 u2 => String.eqb t1 t2 && String.eqb u1 u2
  | _, _ => false
  end.

(** What a run puts on the page. *)
Inductive origin :=
| AllRows (table : string)   (* load_all_data(table) *)
| UserRows (table : string)  (* load_user_data(table, user) *)
| TodayEntry.                (* today's row of the user's daily entries *)

Inductive widget :=
| WText (msg : string)                        (* title, header, info, warning, error *)
| WSelectbox (options : list string)
| WFields (cols : list string)                (* st.markdown of fields of one row *)
| WDataframe (o : origin) (cols : list string) (* st.dataframe *)
| WDailyForm
| WWeeklyForm.

(** Everything a run of the script reads and writes: the backend, the
    process-wide read cache, each entry a value with the messages its
    computation showed (entries are dropped by [st.cache_data.clear()];
    the 60 s expiry only drops more of them), the log of backend
    requests, and [st.session_state.logged_in_user]. *)
Record world := {
  db : backend;
  cache : list (cache_key * (dataframe * list string));
  calls : list call;
  logged_in_user : option string
}.

Definition set_db (w : world) (b : backend) : world :=
  {| db := b; cache := cache w; calls := calls w; logged_in_user := logged_in_user w |}.
Definition set_cache (w : world) (c : list (cache_key * (dataframe * list string))) : world :=
  {| db := db w; cache := c; calls := calls w; logged_in_user := logged_in_user w |}.
Definition log_call (w : world) (c : call) : world :=
  {| db := db w; cache := cache w; calls := calls w ++ [c]; logged_in_user := logged_in_user w |}.
Definition set_user (w : world) (u : option string) : world :=
  {| db := db w; cache := cache w; calls := calls w; logged_in_user := u |}.

(** A run of the script either reaches its end, or stops early: at
    [st.rerun()], at [st.stop()], or at an exception nobody catches. *)
Inductive stop_reason := StopRerun | StopStop | StopException.

Inductive result (A : Type) :=
| Done (a : A) (w : world) (out : list widget)
| Stop (why : stop_reason) (w : world) (out : list widget).
Arguments Done {A}.
Arguments Stop {A}.

Definition script (A : Type) := world -> result A.

Definition ret {A} (a : A) : script A := fun w => Done a w [].

Definition bind {A B} (m : script A) (k : A -> script B) : script B :=
  fun w =>
    match m w with
    | Done a w1 o1 =>
        match k a w1 with
        | Done b w2 o2 => Done b w2 (o1 ++ o2)
        | Stop why w2 o2 => Stop why w2 (o1 ++ o2)
        end
    | Stop why w1 o1 => Stop why w1 o1
    end.

Local Notation "x <- m ;; k" := (bind m (fun x => k))
  (at level 61, m at next level, right associativity).
Local Notation "m ;; k" := (bind m (fun _ => k)) (at level 61, right associativity).

Definition emit (wd : widget) : script unit := fun w => Done tt w [wd].
Definition st_rerun {A} : script A := fun w => Stop StopRerun w [].
Definition st_stop {A} : script A := fun w => Stop StopStop w [].
Definition raise {A} : script A := fun w => Stop StopException w [].
Definition modify (f : world -> world) : script unit := fun w => Done tt (f w) [].
Definition gets {A} (f : world -> A) : script A := fun w => Done (f w) w [].

(** *** Supabase access *)

Definition eq_filter (flt : option (string * string)) (r : dict) : bool :=
  match flt with
  | None => true
  | Some (c, v) => match dget c r with Some v' => String.eqb v v' | None => false end
  end.

(** [supabase.table(t).select(...)[.eq(c, v)].execute()]: [None] when
    the request raises. *)
Definition select (t : string) (flt : option (string * string))
  : script (option (list dict)) :=
  fun w =>
    let w' := log_call w (CSelect t flt) in
    if read_ok (db w) then Done (Some (filter (eq_filter flt) (table_rows (db w) t))) w' []
    else Done None w' [].

(** [supabase.table(t).insert(row).execute()]; [true] when it returns. *)
Definition insert (t : string) (r : dict) : script bool :=
  fun w =>
    let w' := log_call w (CInsert t r) in
    if write_ok (db w) then Done true (set_db w' (table_insert (db w) t r)) []
    else Done false w' [].

Definition cache_clear : script unit := modify (fun w => set_cache w []).

Fixpoint cache_find (k : cache_key) (c : list (cache_key * (dataframe * list string)))
  : option (dataframe * list string) :=
  match c with
  | [] => None
  | (k', v) :: c' => if cache_key_eqb k k' then Some v else cache_find k c'
  end.

(** The messages among a run's elements. *)
Definition messages (o : list widget) : list string :=
  flat_map (fun wd => match wd with WText m => [m] | _ => [] end) o.

(** A function decorated with [@st.cache_data]: on a miss the body runs,
    and its value is stored together with the elements it put on the
    page (the loaders only show messages: the [st.warning] of a failed
    load); on a hit the stored value is returned and those elements are
    replayed, without running the body. *)
Definition cached (k : cache_key) (body : script dataframe) : script dataframe :=
  fun w =>
    match cache_find k (cache w) with
    | Some (df, msgs) => Done df w (map WText msgs)
    | None =>
        match body w with
        | Done df w1 o1 => Done df (set_cache w1 ((k, (df, messages o1)) :: cache w1)) o1
        | Stop why w1 o1 => Stop why w1 o1
        end
    end.

(** [load_all_data(table_name)] *)
Definition load_all_data (t : string) : script dataframe :=
  cached (KAll t)
    (r <- select t None ;;
     match r with
     | Some rs => ret (DataFrame rs)
     | None => emit (WText "Could not load data") ;; ret (DataFrame [])
     end).

(** [load_user_data(table_name, user_id)] *)
Definition load_user_data (t : string) (u : string) : script dataframe :=
  cached (KUser t u)
    (r <- select t (Some ("user_id", u)) ;;
     match r with
     | Some rs => ret (DataFrame rs)
     | None => emit (WText "Could not load user data") ;; ret (DataFrame [])
     end).

(** [check_user_exists(username)]: [response.count > 0]; [False] when
    the query raises. *)
Definition check_user_exists (username : string) : script bool :=
  r <- select USERS_TABLE (Some ("user_id", username)) ;;
  match r with
  | Some rs => ret (Nat.ltb 0 (List.length rs))
  | None => ret false
  end.

(** [register_new_user(username, email)] *)
Definition register_new_user (username email : string) : script bool :=
  ok <- insert USERS_TABLE [("user_id", username); ("email", email)] ;;
  if ok then cache_clear ;; ret true
  else emit (WText "Critical error during user registration") ;; ret false.

(** [is_valid_email(email)]: [re.match(r"[^@]+@[^@]+\.[^@]+", email)]
    is truthy. *)
Definition is_valid_email (email : string) : bool :=
  Regex.match_prefix Regex.email_pattern (list_ascii_of_string email).

(** The specification's email shape, written from its words: exactly
    one ['@'], and at least one ['.'] after it. *)
Fixpoint dot_after_at (l : list ascii) : bool :=
  match l with
  | [] => false
  | c :: l' => if Regex.is_at c then existsb Regex.is_dot l' else dot_after_at l'
  end.

Definition spec_email_shape (email : string) : bool :=
  let l := list_ascii_of_string email in
  Nat.eqb (List.length (filter Regex.is_at l)) 1 && dot_after_at l.

(** [insert_to_supabase(table_name, data)] *)
Definition insert_to_supabase (t : string) (data : dict) : script bool :=
  ok <- insert t data ;;
  if ok then cache_clear ;; ret true
  else emit (WText "Critical error during database write") ;; ret false.

(** [get_week_start(d)] *)
Definition get_week_start (d : Dates.date) : option string := Dates.get_week_start d.

(** The six text inputs of the daily form. *)
Record daily_input := {
  in_g1 : string; in_r1 : string;
  in_g2 : string; in_r2 : string;
  in_g3 : string; in_r3 : string
}.

(** The [entry] dict built by the daily form handler. *)
Record entry := {
  e_date : string;
  gratitude_1 : string; reason_1 : string;
  gratitude_2 : string; reason_2 : string;
  gratitude_3 : string; reason_3 : string
}.

(** The row [save_daily_entry] writes. *)
Definition daily_row (username : string) (e : entry) : dict :=
  [("user_id", username); ("date", e_date e);
   ("g1", gratitude_1 e); ("r1", reason_1 e);
   ("g2", gratitude_2 e); ("r2", reason_2 e);
   ("g3", gratitude_3 e); ("r3", reason_3 e)].

(** [save_daily_entry(username, entry)] *)
Definition save_daily_entry (username : string) (e : entry) : script unit :=
  ok <- insert_to_supabase DAILY_TABLE (daily_row username e) ;;
  if ok then emit (WText "Daily Gratitude saved") else ret tt.

(** [save_weekly_letter(username, week_start, letter_content)] *)
Definition save_weekly_letter (username week_start letter_content : string) : script unit :=
  ok <- insert_to_supabase WEEKLY_TABLE
          [("user_id", username); ("week_start", week_start);
           ("letter_content", letter_content)] ;;
  if ok then emit (WText "Weekly Letter saved") else ret tt.

(** [.streamlit/secrets.toml]: whether the file exists, and its
    [[supabase]] and [[admin]] tables, when present.  [client_ok] tells
    whether [create_client(url, key)] returns for the configured url and
    key (supabase-py validates them; its checks vary between versions). *)
Record secrets := {
  secrets_file : bool;
  sec_supabase : option dict;
  sec_admin : option dict;
  client_ok : bool
}.

(** [is_superuser]: [user == st.secrets.admin.superuser_name] when both
    the [admin] table and its [superuser_name] key are present, [False]
    otherwise. *)
Definition is_superuser (sec : secrets) (user : string) : bool :=
  match sec_admin sec with
  | Some admin =>
      match dget "superuser_name" admin with
      | Some name => String.eqb user name
      | None => false
      end
  | None => false
  end.

(** The widgets of one run that the user acted on: form submissions
    carry the values typed in the form. *)
Record ui := {
  ui_login : option string;                        (* login_form submitted *)
  ui_register : option (string * string * bool);   (* registration_form submitted *)
  ui_logout : bool;
  ui_select : nat;                                 (* index chosen in the date selectbox *)
  ui_daily : option daily_input;                   (* gratitude_form submitted *)
  ui_weekly : option string                        (* weekly_letter_form submitted *)
}.

(** *** Login and registration forms *)

Inductive login_outcome := LoginMissingField | LoginOk | LoginUserNotFound.

(** The [login_form] submit handler. *)
Definition login_submit (login_username : string) : script login_outcome :=
  if String.eqb login_username "" then
    emit (WText "Please enter your username.") ;; ret LoginMissingField
  else
    ex <- check_user_exists login_username ;;
    if ex then
      modify (fun w => set_user w (Some login_username)) ;;
      emit (WText "Welcome back") ;; ret LoginOk
    else emit (WText "Username not found in our records.") ;; ret LoginUserNotFound.

Inductive reg_outcome :=
| RegMissingField | RegInvalidEmail | RegUsernameTaken | RegStoreFailure | RegLoggedIn.

(** [InvalidInput] of the specification: an empty field or a malformed
    email. *)
Definition reg_invalid_input (o : reg_outcome) : bool :=
  match o with RegMissingField | RegInvalidEmail => true | _ => false end.

(** The [registration_form] submit handler, up to the [st.rerun()] that
    ends it after a successful registration. *)
Definition registration_submit (reg_username reg_email : string) (enable_reminders : bool)
  : script reg_outcome :=
  if String.eqb reg_username "" || String.eqb reg_email "" then
    emit (WText "Both Username and Email are required.") ;; ret RegMissingField
  else if negb (is_valid_email reg_email) then
    emit (WText "Please enter a valid email address.") ;; ret RegInvalidEmail
  else
    ex <- check_user_exists reg_username ;;
    if ex then emit (WText "The username is already taken.") ;; ret RegUsernameTaken
    else
      ok <- register_new_user reg_username reg_email ;;
      if ok then
        modify (fun w => set_user w (Some reg_username)) ;;
        (if enable_reminders then emit (WText "Email reminder preference saved") else ret tt) ;;
        ret RegLoggedIn
      else ret RegStoreFailure.

Definition login_page (inp : ui) : script unit :=
  emit (WText "Welcome to Your Daily Gratitude App") ;;
  (match ui_login inp with
   | Some u => o <- login_submit u ;;
               match o with LoginOk => st_rerun | _ => ret tt end
   | None => ret tt
   end) ;;
  match ui_register inp with
  | Some (u, e, rem) => o <- registration_submit u e rem ;;
                        match o with RegLoggedIn => st_rerun | _ => ret tt end
  | None => ret tt
  end.


(** *** The logged-in page *)

Definition date_is (d : string) (r : dict) : bool :=
  match dget "date" r with Some v => String.eqb v d | None => false end.

(** Sidebar "Previous Daily Entries"; returns [daily_dates] when the
    script defines it (only when the frame is not empty). *)
Definition sidebar_history (su : bool) (df_daily_entries : dataframe) (sel : nat)
  : script (option (list string)) :=
  if df_empty df_daily_entries then
    emit (WText "No daily entries yet.") ;; ret None
  else
    let daily_dates := sorted_desc (unique (column "date" df_daily_entries)) in
    match daily_dates with
    | [] => emit (WText "No daily entries yet.") ;; ret (Some daily_dates)
    | d0 :: _ =>
        let history_df :=
          if su then df_daily_entries else drop_column "user_id" df_daily_entries in
        emit (WSelectbox daily_dates) ;;
        let selected_date := nth sel daily_dates d0 in
        if String.eqb selected_date "" then ret (Some daily_dates)
        else
          match filter (date_is selected_date) (df_rows history_df) with
          | [] => raise                                   (* .iloc[0] on no row *)
          | _ :: _ => emit (WFields ["g1"; "r1"]) ;; ret (Some daily_dates)
          end
    end.

(** [has_submitted_today = today_str in daily_dates if 'daily_dates' in
    locals() and daily_dates else False] *)
Definition has_submitted_today (today_str : string) (daily_dates : option (list string)) : bool :=
  match daily_dates with
  | Some ((_ :: _) as ds) => existsb (String.eqb today_str) ds
  | _ => false
  end.

(** [all([g1, r1, g2, r2, g3, r3])]: every field is a non-empty string. *)
Definition all_filled (i : daily_input) : bool :=
  negb (String.eqb (in_g1 i) "") && negb (String.eqb (in_r1 i) "") &&
  negb (String.eqb (in_g2 i) "") && negb (String.eqb (in_r2 i) "") &&
  negb (String.eqb (in_g3 i) "") && negb (String.eqb (in_r3 i) "").

(** The [gratitude_form] submit handler. *)
Definition gratitude_submit (user today_str : string) (i : daily_input) : script unit :=
  if all_filled i then
    save_daily_entry user
      {| e_date := today_str;
         gratitude_1 := in_g1 i; reason_1 := in_r1 i;
         gratitude_2 := in_g2 i; reason_2 := in_r2 i;
         gratitude_3 := in_g3 i; reason_3 := in_r3 i |} ;;
    st_rerun
  else emit (WText "Please fill in all 3 gratitude items and their reasons.").

(** Tab 1: Daily Gratitude. *)
Definition tab_daily (su : bool) (user today_str : string) (df_daily_entries : dataframe)
  (daily_dates : option (list string)) (inp : ui) : script unit :=
  if su then
    emit (WText "Daily Gratitude - ALL DATA") ;;
    df_all <- load_all_data DAILY_TABLE ;;
    emit (WDataframe (AllRows DAILY_TABLE) (df_cols df_all))
  else
    emit (WText "What 3 things are you grateful for today?") ;;
    if has_submitted_today today_str daily_dates then
      emit (WText "You've already submitted your gratitude for today!") ;;
      match filter (date_is today_str) (df_rows df_daily_entries) with
      | [] => raise
      | _ :: _ => emit (WDataframe TodayEntry ["g1"; "r1"; "g2"; "r2"; "g3"; "r3"])
      end
    else
      emit WDailyForm ;;
      match ui_daily inp with
      | Some i => gratitude_submit user today_str i
      | None => ret tt
      end.

Definition week_is (ws : string) (r : dict) : bool :=
  match dget "week_start" r with Some v => String.eqb v ws | None => false end.

(** Tab 2: Weekly Letter / Reflection. *)
Definition tab_weekly (su : bool) (user : string) (today : Dates.date)
  (df_weekly_letters : dataframe) (inp : ui) : script unit :=
  if su then
    emit (WText "Weekly Letters - ALL DATA") ;;
    df_all <- load_all_data WEEKLY_TABLE ;;
    emit (WDataframe (AllRows WEEKLY_TABLE) (df_cols df_all))
  else
    emit (WText "Weekly Reflection") ;;
    match get_week_start today with
    | None => raise                                         (* OverflowError *)
    | Some current_week_start_str =>
        let weekly_dates :=
          if df_empty df_weekly_letters then []
          else unique (column "week_start" df_weekly_letters) in
        let has_submitted_this_week := existsb (String.eqb current_week_start_str) weekly_dates in
        emit (WText "Writing reflection for the week starting") ;;
        (if has_submitted_this_week then
           emit (WText "You have already submitted a weekly letter") ;;
           match filter (week_is current_week_start_str) (df_rows df_weekly_letters) with
           | [] => emit (WText "Submitted letter content could not be retrieved.")
           | _ :: _ => emit (WText "Your Submission:") ;; emit (WFields ["letter_content"])
           end
         else
           emit WWeeklyForm ;;
           match ui_weekly inp with
           | Some content =>
               if String.eqb content "" then
                 emit (WText "Please write something for your weekly letter.")
               else save_weekly_letter user current_week_start_str content ;; st_rerun
           | None => ret tt
           end) ;;
        emit (WText "Weekly Letter History") ;;
        if df_empty df_weekly_letters then emit (WText "No weekly letters saved yet.")
        else emit (WDataframe (UserRows WEEKLY_TABLE)
                              (df_cols (drop_column "user_id" df_weekly_letters)))
    end.

(** The script body once [st.session_state.logged_in_user] is set. *)
Definition main_page (sec : secrets) (today : Dates.date) (user : string) (inp : ui)
  : script unit :=
  let today_str := Dates.isoformat today in
  let su := is_superuser sec user in
  df_daily_entries <- load_user_data DAILY_TABLE user ;;
  df_weekly_letters <- load_user_data WEEKLY_TABLE user ;;
  emit (WText "Journal") ;;
  if ui_logout inp then
    modify (fun w => set_user w None) ;; cache_clear ;; st_rerun
  else
    daily_dates <- sidebar_history su df_daily_entries (ui_select inp) ;;
    (if su then emit (WText "Superuser Tools") else ret tt) ;;
    tab_daily su user today_str df_daily_entries daily_dates inp ;;
    tab_weekly su user today df_weekly_letters inp.

(** One run of [app.py]: the secrets check ([st.secrets] raises when
    there is no secrets file at all), [get_supabase_client()] (a missing
    [key] or a raising [create_client] is caught, shown with [st.error],
    and ends the run with [st.stop()]), then the login flow or the
    logged-in page. *)
Definition app (sec : secrets) (today : Dates.date) (inp : ui) : script unit :=
  if negb (secrets_file sec) then raise
  else
    match sec_supabase sec with
    | Some sb =>
        match dget "url" sb with
        | Some _ =>
            match dget "key" sb with
            | Some _ =>
                if client_ok sec then
                  u <- gets logged_in_user ;;
                  match u with
                  | None => login_page inp
                  | Some user => main_page sec today user inp
                  end
                else emit (WText "Error connecting to Supabase.") ;; st_stop
            | None => emit (WText "Error connecting to Supabase.") ;; st_stop
            end
        | None => emit (WText "Supabase secrets not configured.") ;; st_stop
        end
    | None => emit (WText "Supabase secrets not configured.") ;; st_stop
    end.

End App.

(* ================================================================== *)
(** ** [send_reminders.py]: the reminder job                           *)
(* ================================================================== *)

Module Reminder.

(** The environment variables the script reads with [os.environ.get]. *)
Record env := {
  SUPABASE_URL : option string;
  SUPABASE_KEY : option string;
  MAILJET_PUBLIC_KEY : option string;
  MAILJET_SECRET_KEY : option string;
  SENDER_EMAIL : option string
}.

(** Python truthiness of [os.environ.get(...)]: [None] and [""] are
    false. *)
Definition truthy (o : option string) : bool :=
  match o with Some s => negb (String.eqb s "") | None => false end.

(** [all([SUPABASE_URL, SUPABASE_KEY, MAILJET_PUBLIC_KEY,
    MAILJET_SECRET_KEY, SENDER_EMAIL])] *)
Definition config_ok (e : env) : bool :=
  truthy (SUPABASE_URL e) && truthy (SUPABASE_KEY e) &&
  truthy (MAILJET_PUBLIC_KEY e) && truthy (MAILJET_SECRET_KEY e) &&
  truthy (SENDER_EMAIL e).

(** A row of [user_df]; a missing or null cell ([pd.notna] false) is
    [None]. *)
Record row := { r_user_id : option string; r_email : option string }.

(** What the job does, in order. *)
Inductive event :=
| ECreateClient                          (* create_client(SUPABASE_URL, SUPABASE_KEY) *)
| EFetchUsers                            (* fetch_users_for_reminder(supabase_client) *)
| ESend (recipient_email username : string) (* send_reminder_email: one POST to Mailjet *)
| ESleep                                 (* time.sleep(0.5) *)
| ESkip.                                 (* "Skipping row ..." *)

Inductive exit_status := ExitCode (code : Z) | Finished.

(** The methods of the request builder that postgrest's
    [.select(...)] returns (its filter methods, [not_] being a property
    that negates the next filter, and its modifiers): the names the
    chain [supabase_client.table(USERS_TABLE).select("user_id, email")]
    can be continued with. *)
Definition select_builder_methods : list string :=
  [ "not_"; "filter"; "eq"; "neq"; "gt"; "gte"; "lt"; "lte"; "is_"; "like";
    "like_all_of"; "like_any_of"; "ilike"; "ilike_all_of"; "ilike_any_of";
    "or_"; "fts"; "plfts"; "phfts"; "wfts"; "in_"; "cs"; "cd"; "contains";
    "contained_by"; "ov"; "sl"; "sr"; "nxl"; "nxr"; "adj"; "range_gt";
    "range_gte"; "range_lt"; "range_lte"; "range_adjacent"; "overlaps";
    "match"; "explain"; "order"; "limit"; "offset"; "range"; "single";
    "maybe_single"; "text_search"; "csv"; "execute" ].

Definition has_method (m : string) : bool :=
  existsb (String.eqb m) select_builder_methods.

(** [fetch_users_for_reminder(supabase_client)]: the query calls
    [.not_eq("email", "null")] on the select builder.  When the builder
    has that method the response's rows come back (an empty frame when
    the request raises, [resp = None]); when it has not, the attribute
    lookup raises [AttributeError] before any request is sent, the
    [except Exception] prints the error and an empty [pd.DataFrame()] is
    returned. *)
Definition fetch_users_for_reminder (resp : option (list row)) : list row :=
  if has_method "not_eq" then
    match resp with Some rs => rs | None => [] end
  else [].

(** The body of the [for index, row in user_df.iterrows()] loop.  The
    outcome of the POST is only printed, so it does not change what
    follows. *)
Definition loop_body (r : row) : list event :=
  match r_email r, r_user_id r with
  | Some email, Some username => [ESend email username; ESleep]
  | _, _ => [ESkip]
  end.

(** [for index, row in user_df.iterrows(): ...] *)
Definition send_loop (user_df : list row) : list event :=
  flat_map loop_body user_df.

(** [main()]: [client_ok] tells whether [create_client] returns
    (otherwise [get_supabase_client] calls [sys.exit(1)]), [resp] is the
    response to the user query. *)
Definition main (client_ok : bool) (resp : option (list row)) : list event * exit_status :=
  if negb client_ok then ([ECreateClient], ExitCode 1)
  else
    let user_df := fetch_users_for_reminder resp in
    match user_df with
    | [] => ([ECreateClient; EFetchUsers], Finished)
    | _ => (ECreateClient :: EFetchUsers :: send_loop user_df, Finished)
    end.

(** A run of the script: the module-level configuration check, then
    [main()]. *)
Definition run (e : env) (client_ok : bool) (resp : option (list row))
  : list event * exit_status :=
  if negb (config_ok e) then ([], ExitCode 1) else main client_ok resp.

(** The user ids a run emails. *)
Definition emailed (evs : list event) : list string :=
  flat_map (fun ev => match ev with ESend _ u => [u] | _ => [] end) evs.

(** The specification's [to_remind = users_with_email - submitted_today],
    written from its words, to compare with [emailed]. *)
Definition spec_to_remind (users : list row) (submitted_today : list string) : list string :=
  flat_map (fun r => match r_email r, r_user_id r with
                     | Some _, Some u =>
                         if existsb (String.eqb u) submitted_today then [] else [u]
                     | _, _ => []
                     end) users.

End Reminder.

(* ================================================================== *)
(** ** Observations of a run, and the concrete inputs used below       *)
(* ================================================================== *)

Module Views.
Import App.
Local Open Scope list_scope.

Definition outputs {A} (r : result A) : list widget :=
  match r with Done _ _ o => o | Stop _ _ o => o end.

(** Every widget a script puts on the page, from any world, satisfies [P]. *)
Definition emits_only (P : widget -> Prop) {A} (m : script A) : Prop :=
  forall w, Forall P (outputs (m w)).

(** Messages never show a column. *)
Definition text_ok (P : widget -> Prop) : Prop := forall msg, P (WText msg).

Definition shows_column (c : string) (wd : widget) : Prop :=
  match wd with
  | WFields cs => In c cs
  | WDataframe _ cs => In c cs
  | _ => False
  end.

(** The world of the counterexamples and witnesses below: one registered
    user, the backend down for reads. *)
Definition sarah : dict := [("user_id", "Sarah9012"); ("email", "sarah@example.com")].

Definition read_outage_world : world :=
  {| db := {| users := [sarah]; daily := []; weekly := [];
              read_ok := false; write_ok := true |};
     cache := []; calls := []; logged_in_user := None |}.

Definition registered_world : world :=
  {| db := {| users := [sarah]; daily := []; weekly := [];
              read_ok := true; write_ok := true |};
     cache := []; calls := []; logged_in_user := None |}.

Definition daily_world : world :=
  {| db := {| users := [sarah]; daily := []; weekly := [];
              read_ok := true; write_ok := true |};
     cache := []; calls := []; logged_in_user := Some "Sarah9012" |}.

Definition sarah_input : daily_input :=
  {| in_g1 := "tea"; in_r1 := "it woke me up"; in_g2 := "a friend";
     in_r2 := "kind words"; in_g3 := "a finished task"; in_r3 := "free evening" |}.

Definition no_action : ui :=
  {| ui_login := None; ui_register := None; ui_logout := false; ui_select := 0;
     ui_daily := None; ui_weekly := None |}.

Definition admin_secrets : secrets :=
  {| secrets_file := true;
     sec_supabase := Some [("url", "https://example.supabase.co"); ("key", "k")];
     sec_admin := Some [("superuser_name", "admin")];
     client_ok := true |}.

Definition empty_world : world :=
  {| db := {| users := [[("user_id", "admin"); ("email", "admin@example.com")]];
              daily := []; weekly := []; read_ok := true; write_ok := true |};
     cache := []; calls := []; logged_in_user := Some "admin" |}.


(** The world a run ends in. *)
Definition world_of {A} (r : result A) : world :=
  match r with Done _ w _ => w | Stop _ w _ => w end.

(** A script keeps the invariant [I]: from a world satisfying [I] it
    ends in a world satisfying [I]. *)
Definition keeps (I : world -> Prop) {A} (m : script A) : Prop :=
  forall w, I w -> I (world_of (m w)).

(** Every frame cached for [load_user_data(t, u)] holds only rows whose
    [user_id] is [u]. *)
Definition cache_ok (w : world) : Prop :=
  forall t u df o, cache_find (KUser t u) (cache w) = Some (df, o) ->
                   Forall (fun r => dget "user_id" r = Some u) (df_rows df).

(** Every cached frame is [pd.DataFrame] of its rows, as the loaders
    build it. *)
Definition frames_ok (w : world) : Prop :=
  forall k df o, cache_find k (cache w) = Some (df, o) -> df = DataFrame (df_rows df).

(** A request that only reads. *)
Definition is_select (c : call) : bool :=
  match c with CSelect _ _ => true | CInsert _ _ => false end.

(** From [w0] to [w], the tables are unchanged and only read requests
    were sent. *)
Definition read_only_from (w0 w : world) : Prop :=
  db w = db w0 /\ exists cs, calls w = calls w0 ++ cs /\ forallb is_select cs = true.

(** What a run returns and the world it ends in, without its widgets. *)
Definition run_state {A} (r : result A) : option A * world :=
  match r with Done a w _ => (Some a, w) | Stop _ w _ => (None, w) end.

End Views.

Module Inputs.
Import Reminder.

Definition env_ok : env :=
  {| SUPABASE_URL := Some "https://example.supabase.co"; SUPABASE_KEY := Some "k";
     MAILJET_PUBLIC_KEY := Some "pub"; MAILJET_SECRET_KEY := Some "sec";
     SENDER_EMAIL := Some "sneha@example.com" |}.

Definition users_ABC : list row :=
  [ {| r_user_id := Some "A"; r_email := Some "a@x" |};
    {| r_user_id := Some "B"; r_email := Some "b@x" |};
    {| r_user_id := Some "C"; r_email := Some "c@x" |} ].

End Inputs.

(* ================================================================== *)
(** * Properties                                                       *)
(* ================================================================== *)

Module RegexFacts.
Import Regex.
Local Open Scope list_scope.

Lemma match_prefix_sound pat s :
  match_prefix pat s = true -> exists u v, s = u ++ v /\ matches pat u.
Proof.
  revert pat; induction s as [|c s IH]; intros [|[p|p] rest] H; simpl in H.
  - exists [], []; split; [reflexivity | constructor].
  - discriminate.
  - discriminate.
  - exists [], (c :: s); split; [reflexivity | constructor].
  - apply andb_prop in H as [Hc H].
    destruct (IH _ H) as (u & v & -> & Hm).
    exists (c :: u), v; split; [reflexivity | now constructor].
  - apply andb_prop in H as [Hc H]; apply orb_prop in H as [H|H];
      destruct (IH _ H) as (u & v & -> & Hm);
      exists (c :: u), v; (split; [reflexivity|]).
    + now apply m_plus_more.
    + now apply m_plus_last.
Qed.

Lemma match_prefix_complete pat u v :
  matches pat u -> match_prefix pat (u ++ v) = true.
Proof.
  induction 1 as [|p c rest s Hc _ IH|p c rest s Hc _ IH|p c rest s Hc _ IH];
    simpl; try rewrite Hc; simpl.
  - destruct v; reflexivity.
  - exact IH.
  - now rewrite IH.
  - now rewrite IH, orb_true_r.
Qed.

(** Inversion of a [+] atom: a non-empty run of the class, then the rest. *)
Lemma matches_plus_inv p rest u :
  matches (APlus p :: rest) u ->
  exists x u', u = x ++ u' /\ x <> [] /\ forallb p x = true /\ matches rest u'.
Proof.
  induction u as [|c u IH]; intros H;
    inversion H as [|? ? ? ? Hc Hm|? ? ? ? Hc Hm|? ? ? ? Hc Hm]; subst.
  - destruct (IH Hm) as (x & u' & -> & Hx & Hp & Hm').
    exists (c :: x), u'; simpl; rewrite Hc; repeat split; auto; discriminate.
  - exists [c], u; simpl; rewrite Hc; repeat split; auto; discriminate.
Qed.

Lemma matches_plus_intro p rest x u' :
  x <> [] -> forallb p x = true -> matches rest u' -> matches (APlus p :: rest) (x ++ u').
Proof.
  induction x as [|c x IH]; intros Hx Hp Hm; [congruence|].
  simpl in Hp; apply andb_prop in Hp as [Hc Hp].
  destruct x as [|c' x].
  - now apply m_plus_last.
  - apply m_plus_more; [exact Hc|]. apply IH; [discriminate|exact Hp|exact Hm].
Qed.

Lemma matches_email_inv u :
  matches email_pattern u ->
  exists x y z, u = x ++ [at_sign] ++ y ++ [dot] ++ z /\
    x <> [] /\ y <> [] /\ z <> [] /\
    forallb not_at x = true /\ forallb not_at y = true /\ forallb not_at z = true.
Proof.
  unfold email_pattern; intros H.
  apply matches_plus_inv in H as (x & u1 & -> & Hx & Px & H).
  inversion H as [|? a ? ? Ha H1| |]; subst; clear H.
  apply matches_plus_inv in H1 as (y & u2 & -> & Hy & Py & H).
  inversion H as [|? b ? ? Hb H2| |]; subst; clear H.
  apply matches_plus_inv in H2 as (z & u3 & -> & Hz & Pz & H).
  inversion H; subst.
  unfold is_at, is_dot in *.
  apply Ascii.eqb_eq in Ha, Hb; subst.
  exists x, y, z; rewrite !app_nil_r; repeat split; auto.
Qed.

Lemma matches_email_intro x y z :
  x <> [] -> y <> [] -> z <> [] ->
  forallb not_at x = true -> forallb not_at y = true -> forallb not_at z = true ->
  matches email_pattern (x ++ [at_sign] ++ y ++ [dot] ++ z).
Proof.
  intros Hx Hy Hz Px Py Pz; unfold email_pattern.
  apply matches_plus_intro; auto. simpl. apply m_one; [reflexivity|].
  apply matches_plus_intro; auto. simpl. apply m_one; [reflexivity|].
  rewrite <- (app_nil_r z). apply matches_plus_intro; auto. constructor.
Qed.

End RegexFacts.

Module DateFacts.
Import Dates.
Local Open Scope Z_scope.

Lemma isoweekday_range d : 1 <= isoweekday d <= 7.
Proof.
  unfold isoweekday; destruct (Z.eqb_spec (d mod 7) 0); Z.div_mod_to_equations; lia.
Qed.

Lemma isoweekday_mod d : (d - (isoweekday d - 1)) mod 7 = 1.
Proof.
  unfold isoweekday; destruct (Z.eqb_spec (d mod 7) 0) as [E|E];
    Z.div_mod_to_equations; lia.
Qed.

Lemma isoweekday_of_mod1 w : w mod 7 = 1 -> isoweekday w = 1.
Proof. unfold isoweekday; intros ->; reflexivity. Qed.

Lemma week_start_in_range d :
  valid_date d -> 1 <= d - (isoweekday d - 1) <= d.
Proof.
  unfold valid_date, isoweekday; intros Hd.
  destruct (Z.eqb_spec (d mod 7) 0) as [E|E]; Z.div_mod_to_equations; lia.
Qed.

Lemma date_sub_days_ok d k :
  1 <= d - k <= MAXORDINAL -> date_sub_days d k = Some (d - k).
Proof.
  intros H; unfold date_sub_days, date_add_days.
  replace (d + - k) with (d - k) by lia.
  destruct (Z.ltb_spec 0 (d - k)); destruct (Z.leb_spec (d - k) MAXORDINAL);
    simpl; try reflexivity; lia.
Qed.

(** [C3] For every valid date [d], [get_week_start] computes
    [d - (isoweekday(d) - 1)] without overflow; this date is a Monday, is
    at most 6 days before [d], and [week_start] is idempotent on it. *)
Theorem week_start_monday_idempotent (d : date) :
  valid_date d ->
  exists w, week_start d = Some w /\ w = d - (isoweekday d - 1) /\
            get_week_start d = Some (isoformat w) /\
            isoweekday w = 1 /\ w <= d <= w + 6 /\ week_start w = Some w.
Proof.
  intros Hd.
  pose proof (week_start_in_range d Hd) as Hr.
  pose proof (isoweekday_range d) as Hi.
  assert (Hmon : isoweekday (d - (isoweekday d - 1)) = 1)
    by (apply isoweekday_of_mod1, isoweekday_mod).
  unfold valid_date in Hd.
  assert (Hw : week_start d = Some (d - (isoweekday d - 1)))
    by (apply date_sub_days_ok; lia).
  exists (d - (isoweekday d - 1)).
  split; [exact Hw|]. split; [reflexivity|].
  split; [unfold get_week_start; now rewrite Hw|].
  split; [exact Hmon|]. split; [lia|].
  unfold week_start; rewrite Hmon.
  replace (d - (isoweekday d - 1)) with (d - (isoweekday d - 1) - (1 - 1)) at 2 by lia.
  apply date_sub_days_ok; lia.
Qed.

(** Witness: Wednesday 2024-06-05 has its week start on Monday
    2024-06-03. *)
Lemma week_start_monday_idempotent_witness :
  valid_date (ymd2ord 2024 6 5) /\
  exists w, week_start (ymd2ord 2024 6 5) = Some w /\
            w = ymd2ord 2024 6 5 - (isoweekday (ymd2ord 2024 6 5) - 1) /\
            get_week_start (ymd2ord 2024 6 5) = Some (isoformat w) /\
            isoweekday w = 1 /\ w <= ymd2ord 2024 6 5 <= w + 6 /\
            week_start w = Some w.
Proof.
  assert (H : valid_date (ymd2ord 2024 6 5)) by (unfold valid_date; vm_compute; split; discriminate).
  split; [exact H | apply (week_start_monday_idempotent (ymd2ord 2024 6 5) H)].
Defined.

Example week_start_20240605 : get_week_start (ymd2ord 2024 6 5) = Some "2024-06-03".
Proof. reflexivity. Qed.

End DateFacts.

Module Invariants.
Import App Views.

(** *** Invariants kept by scripts *)

Section Keeps.
Variable I : world -> Prop.

Lemma keeps_ret {A} (a : A) : keeps I (ret a).
Proof. intros w H; exact H. Qed.
Lemma keeps_emit wd : keeps I (emit wd).
Proof. intros w H; exact H. Qed.
Lemma keeps_gets {A} (f : world -> A) : keeps I (gets f).
Proof. intros w H; exact H. Qed.
Lemma keeps_rerun {A} : keeps I (@st_rerun A).
Proof. intros w H; exact H. Qed.
Lemma keeps_stop {A} : keeps I (@st_stop A).
Proof. intros w H; exact H. Qed.
Lemma keeps_raise {A} : keeps I (@raise A).
Proof. intros w H; exact H. Qed.
Lemma keeps_modify f : (forall w, I w -> I (f w)) -> keeps I (modify f).
Proof. intros Hf w H; exact (Hf w H). Qed.

Lemma keeps_bind {A B} (m : script A) (k : A -> script B) :
  keeps I m -> (forall a, keeps I (k a)) -> keeps I (bind m k).
Proof.
  intros Hm Hk w H; unfold bind; specialize (Hm w H).
  destruct (m w) as [a w1 o1|why w1 o1]; simpl in *; [|exact Hm].
  specialize (Hk a w1 Hm); destruct (k a w1); exact Hk.
Qed.

Hypothesis I_log : forall w c, I w -> I (log_call w c).

Lemma keeps_select t flt : keeps I (select t flt).
Proof. intros w H; unfold select; destruct (read_ok (db w)); simpl; auto. Qed.

End Keeps.

(** An invariant that ignores the cache is kept by a cached call when it
    is kept by the body. *)
Lemma keeps_cached (I : world -> Prop) k body :
  (forall w c, I w -> I (set_cache w c)) -> keeps I body -> keeps I (cached k body).
Proof.
  intros Hc Hb w H; unfold cached.
  destruct (cache_find k (cache w)) as [[df o]|]; [exact H|].
  specialize (Hb w H); destruct (body w); simpl in *; auto.
Qed.

Ltac keeps_step :=
  match goal with
  | |- keeps _ (bind _ _) => apply keeps_bind; [|intros ?]
  | |- keeps _ (ret _) => apply keeps_ret
  | |- keeps _ (emit _) => apply keeps_emit
  | |- keeps _ (gets _) => apply keeps_gets
  | |- keeps _ st_rerun => apply keeps_rerun
  | |- keeps _ st_stop => apply keeps_stop
  | |- keeps _ raise => apply keeps_raise
  | |- keeps _ (modify _) => apply keeps_modify
  | |- keeps _ (select _ _) => apply keeps_select
  | |- keeps _ (if ?b then _ else _) => destruct b
  | |- keeps _ (match ?x with _ => _ end) => destruct x
  end.

End Invariants.

Module AppFacts.
Import App Views Invariants.
Local Open Scope list_scope.

Local Notation "x <- m ;; k" := (bind m (fun x => k))
  (at level 61, m at next level, right associativity).
Local Notation "m ;; k" := (bind m (fun _ => k)) (at level 61, right associativity).

(** *** What a script may put on the page *)

Section EmitsOnly.
Variable P : widget -> Prop.

Lemma eo_ret {A} (a : A) : emits_only P (ret a).
Proof. intros w; constructor. Qed.

Lemma eo_emit wd : P wd -> emits_only P (emit wd).
Proof. intros H w; now constructor. Qed.

Lemma eo_bind {A B} (m : script A) (k : A -> script B) :
  emits_only P m -> (forall a, emits_only P (k a)) -> emits_only P (bind m k).
Proof.
  intros Hm Hk w; unfold bind; specialize (Hm w).
  destruct (m w) as [a w1 o1|why w1 o1]; simpl in *; [|exact Hm].
  specialize (Hk a w1); destruct (k a w1); simpl in *; apply Forall_app; auto.
Qed.

Lemma eo_stop_rerun {A} : emits_only P (@st_rerun A).
Proof. intros w; constructor. Qed.
Lemma eo_stop_stop {A} : emits_only P (@st_stop A).
Proof. intros w; constructor. Qed.
Lemma eo_raise {A} : emits_only P (@raise A).
Proof. intros w; constructor. Qed.
Lemma eo_modify f : emits_only P (modify f).
Proof. intros w; constructor. Qed.
Lemma eo_gets {A} (f : world -> A) : emits_only P (gets f).
Proof. intros w; constructor. Qed.
Lemma eo_select t flt : emits_only P (select t flt).
Proof. intros w; unfold select; destruct (read_ok (db w)); constructor. Qed.
Lemma eo_insert t r : emits_only P (insert t r).
Proof. intros w; unfold insert; destruct (write_ok (db w)); constructor. Qed.

Lemma eo_cached k body :
  text_ok P -> emits_only P body -> emits_only P (cached k body).
Proof.
  intros HT Hb w; unfold cached.
  destruct (cache_find k (cache w)) as [[df msgs]|].
  - simpl; apply Forall_forall; intros wd Hin; apply in_map_iff in Hin.
    destruct Hin as (m & <- & _); apply HT.
  - specialize (Hb w); destruct (body w); exact Hb.
Qed.

End EmitsOnly.

Ltac eo_step :=
  match goal with
  | |- emits_only _ (bind _ _) => apply eo_bind; [|intros ?]
  | |- emits_only _ (ret _) => apply eo_ret
  | |- emits_only _ st_rerun => apply eo_stop_rerun
  | |- emits_only _ st_stop => apply eo_stop_stop
  | |- emits_only _ raise => apply eo_raise
  | |- emits_only _ (modify _) => apply eo_modify
  | |- emits_only _ (gets _) => apply eo_gets
  | |- emits_only _ (select _ _) => apply eo_select
  | |- emits_only _ (insert _ _) => apply eo_insert
  | |- emits_only _ (emit _) => apply eo_emit
  | |- emits_only _ (if ?b then _ else _) => destruct b
  | |- emits_only _ (match ?x with _ => _ end) => destruct x
  end.

Lemma eo_load_all_data P t : text_ok P -> emits_only P (load_all_data t).
Proof.
  intros HT; unfold load_all_data; apply eo_cached; [exact HT|].
  repeat eo_step; auto.
Qed.

Lemma eo_load_user_data P t u : text_ok P -> emits_only P (load_user_data t u).
Proof.
  intros HT; unfold load_user_data; apply eo_cached; [exact HT|].
  repeat eo_step; auto.
Qed.

Lemma eo_insert_to_supabase P t d : text_ok P -> emits_only P (insert_to_supabase t d).
Proof.
  intros HT; unfold insert_to_supabase, cache_clear; repeat eo_step; auto.
Qed.

(** *** List and frame lemmas *)

Lemma In_insert_desc y x l : In y (insert_desc x l) <-> y = x \/ In y l.
Proof.
  induction l as [|z l IH]; simpl; [firstorder congruence|].
  destruct (String.leb z x); simpl; rewrite ?IH; firstorder congruence.
Qed.

Lemma In_sorted_desc y l : In y (sorted_desc l) <-> In y l.
Proof.
  induction l as [|x l IH]; simpl; [tauto|].
  rewrite In_insert_desc, IH; firstorder congruence.
Qed.

Lemma In_unique y l : In y (unique l) <-> In y l.
Proof.
  induction l as [|x l IH]; simpl; [tauto|].
  rewrite filter_In, IH.
  destruct (String.eqb_spec x y); simpl; firstorder congruence.
Qed.

Lemma In_column c v df :
  In v (column c df) <-> exists r, In r (df_rows df) /\ dget c r = Some v.
Proof.
  unfold column; rewrite in_flat_map; split.
  - intros (r & Hr & Hv); exists r; split; [exact Hr|].
    destruct (dget c r); simpl in Hv; [now destruct Hv as [<-|[]]|contradiction].
  - intros (r & Hr & Hv); exists r; split; [exact Hr|]; rewrite Hv; now left.
Qed.

Lemma dget_drop k c r :
  dget k (filter (fun kv => negb (String.eqb c (fst kv))) r) =
  if String.eqb k c then None else dget k r.
Proof.
  induction r as [|[k' v] r IH]; simpl.
  - now destruct (String.eqb k c).
  - destruct (String.eqb_spec c k'); simpl; rewrite ?IH;
      destruct (String.eqb_spec k c), (String.eqb_spec k k'); congruence.
Qed.

(** *** Email validation and registration *)

Lemma dot_after_at_app x rest :
  forallb Regex.not_at x = true ->
  dot_after_at (x ++ Regex.at_sign :: rest) = existsb Regex.is_dot rest.
Proof.
  induction x as [|c x IH]; simpl; intros H; [reflexivity|].
  apply andb_prop in H as [Hc H].
  unfold Regex.not_at in Hc; unfold Regex.is_at.
  destruct (Ascii.eqb c Regex.at_sign); [discriminate|]. now apply IH.
Qed.

Lemma valid_email_dot_after_at e :
  is_valid_email e = true -> dot_after_at (list_ascii_of_string e) = true.
Proof.
  unfold is_valid_email; intros H.
  apply RegexFacts.match_prefix_sound in H as (u & v & Hs & Hm).
  apply RegexFacts.matches_email_inv in Hm as (x & y & z & -> & _ & _ & _ & Px & _ & _).
  rewrite Hs, <- !app_assoc; simpl.
  rewrite dot_after_at_app by exact Px.
  rewrite existsb_app; simpl. now rewrite orb_true_r.
Qed.

Lemma registration_invalid_email u e rem w :
  dot_after_at (list_ascii_of_string e) = false ->
  exists o out, registration_submit u e rem w = Done o w out /\ reg_invalid_input o = true.
Proof.
  intros Hd; unfold registration_submit.
  destruct (String.eqb u "" || String.eqb e "").
  - eexists _, _; split; reflexivity.
  - destruct (is_valid_email e) eqn:Hv.
    + apply valid_email_dot_after_at in Hv; congruence.
    + eexists _, _; split; reflexivity.
Qed.

(** [C2] (as amended) Every string [is_valid_email] accepts begins with
    [x@y.z], where [x], [y] and [z] are non-empty and contain no ['@'];
    every string of exactly this shape is accepted.  In particular, a registration whose
    email has no ['@'], or no ['.'] after its first ['@'], ends with an
    [InvalidInput] message and leaves the world as it was: no request of
    any kind reaches the backend. *)
Theorem email_validation_shape :
  (forall e, is_valid_email e = true ->
     exists x y z t,
       list_ascii_of_string e = x ++ [Regex.at_sign] ++ y ++ [Regex.dot] ++ z ++ t /\
       x <> [] /\ y <> [] /\ z <> [] /\
       forallb Regex.not_at x = true /\ forallb Regex.not_at y = true /\
       forallb Regex.not_at z = true) /\
  (forall x y z, x <> [] -> y <> [] -> z <> [] ->
     forallb Regex.not_at x = true -> forallb Regex.not_at y = true ->
     forallb Regex.not_at z = true ->
     is_valid_email (string_of_list_ascii (x ++ [Regex.at_sign] ++ y ++ [Regex.dot] ++ z)) = true) /\
  (forall u e rem w, dot_after_at (list_ascii_of_string e) = false ->
     exists o out, registration_submit u e rem w = Done o w out /\ reg_invalid_input o = true).
Proof.
  split; [|split].
  - intros e H; unfold is_valid_email in H.
    apply RegexFacts.match_prefix_sound in H as (u & v & Hs & Hm).
    apply RegexFacts.matches_email_inv in Hm
      as (x & y & z & -> & Hx & Hy & Hz & Px & Py & Pz).
    exists x, y, z, v; rewrite Hs, <- !app_assoc; auto 10.
  - intros x y z Hx Hy Hz Px Py Pz; unfold is_valid_email.
    rewrite list_ascii_of_string_of_list_ascii, <- (app_nil_r (x ++ _)).
    apply RegexFacts.match_prefix_complete, RegexFacts.matches_email_intro; assumption.
  - exact registration_invalid_email.
Qed.

(** [C2] counterexample: ["a@.com"] has exactly one ['@'] and a ['.']
    after it, but [is_valid_email] rejects it (the pattern needs a
    character between the ['@'] and the ['.']). *)
Lemma email_validation_iff_counterexample :
  spec_email_shape "a@.com" = true /\ is_valid_email "a@.com" = false.
Proof. split; reflexivity. Qed.

(** [re.match] is not anchored at the end: a string with a second ['@']
    after a valid prefix is accepted. *)
Example is_valid_email_trailing_at : is_valid_email "a@b.c@d" = true.
Proof. reflexivity. Qed.

Lemma check_user_exists_found u w r :
  read_ok (db w) = true -> In r (users (db w)) -> dget "user_id" r = Some u ->
  check_user_exists u w =
    Done true (log_call w (CSelect USERS_TABLE (Some ("user_id", u)))) [].
Proof.
  intros Hok Hr Hu; unfold check_user_exists, bind, select; rewrite Hok; simpl.
  replace (table_rows (db w) USERS_TABLE) with (users (db w)) by reflexivity.
  assert (Hin : In r (filter (eq_filter (Some ("user_id", u))) (users (db w)))).
  { apply filter_In; split; [exact Hr|]. simpl; rewrite Hu; apply String.eqb_refl. }
  destruct (filter (eq_filter (Some ("user_id", u))) (users (db w))); [contradiction|].
  reflexivity.
Qed.

Lemma check_user_exists_outage u w :
  read_ok (db w) = false ->
  check_user_exists u w =
    Done false (log_call w (CSelect USERS_TABLE (Some ("user_id", u)))) [].
Proof. intros Hok; unfold check_user_exists, bind, select; rewrite Hok; reflexivity. Qed.

(** [C4] (as amended) When a [user_data] row already carries the
    [user_id] and the backend answers the existence query, registration
    with that [user_id] never inserts: the backend is unchanged, the only
    request it may send is that query, and it fails with [DuplicateUser]
    when both fields are filled in and the email passes validation, with
    [InvalidInput] otherwise. *)
Theorem registration_existing_user_no_insert u e rem w r :
  read_ok (db w) = true -> In r (users (db w)) -> dget "user_id" r = Some u ->
  exists o w' out,
    registration_submit u e rem w = Done o w' out /\ db w' = db w /\
    (forall c, In c (calls w') ->
       In c (calls w) \/ c = CSelect USERS_TABLE (Some ("user_id", u))) /\
    (if negb (String.eqb u "") && negb (String.eqb e "") && is_valid_email e
     then o = RegUsernameTaken else reg_invalid_input o = true).
Proof.
  intros Hok Hr Hu; unfold registration_submit.
  destruct (String.eqb u "") eqn:Eu, (String.eqb e "") eqn:Ee; simpl.
  1-3: exists RegMissingField, w, [WText "Both Username and Email are required."];
       repeat split; auto.
  destruct (is_valid_email e) eqn:Hv; simpl.
  - unfold bind at 1; rewrite (check_user_exists_found u w r Hok Hr Hu); simpl.
    eexists _, _, _; split; [reflexivity|]; split; [reflexivity|]; split; [|reflexivity].
    intros c Hc; simpl in Hc; apply in_app_or in Hc as [Hc|[Hc|[]]]; auto.
  - eexists _, _, _; split; [reflexivity|]; repeat split; auto.
Qed.

(** [C4] counterexample: during a read outage, registering the already
    registered ["Sarah9012"] is not refused: it inserts a second row for
    the same [user_id] and logs the session in. *)
Lemma registration_existing_user_counterexample :
  In sarah (users (db read_outage_world)) /\
  match registration_submit "Sarah9012" "sarah@example.com" true read_outage_world with
  | Done o w' _ => o = RegLoggedIn /\ List.length (users (db w')) = 2%nat
  | Stop _ _ _ => False
  end.
Proof. split; [now left | vm_compute; split; reflexivity]. Qed.

Lemma registration_existing_user_no_insert_witness :
  read_ok (db registered_world) = true /\ In sarah (users (db registered_world)) /\
  dget "user_id" sarah = Some "Sarah9012" /\
  exists o w' out,
    registration_submit "Sarah9012" "sarah@example.com" true registered_world = Done o w' out /\
    db w' = db registered_world /\
    (forall c, In c (calls w') ->
       In c (calls registered_world) \/ c = CSelect USERS_TABLE (Some ("user_id", "Sarah9012"))) /\
    (if negb (String.eqb "Sarah9012" "") && negb (String.eqb "sarah@example.com" "") &&
        is_valid_email "sarah@example.com"
     then o = RegUsernameTaken else reg_invalid_input o = true).
Proof.
  assert (H1 : read_ok (db registered_world) = true) by reflexivity.
  assert (H2 : In sarah (users (db registered_world))) by (left; reflexivity).
  assert (H3 : dget "user_id" sarah = Some "Sarah9012") by reflexivity.
  split; [exact H1|]. split; [exact H2|]. split; [exact H3|].
  apply (registration_existing_user_no_insert "Sarah9012" "sarah@example.com" true
           registered_world sarah H1 H2 H3).
Defined.

(** [C9] When the backend's reads fail, [check_user_exists] answers
    [False] without any message; logging in with any non-empty username
    then fails with "Username not found", and a registration with valid
    fields is never refused as a duplicate: it goes on to send the insert. *)
Theorem read_outage_user_exists_false w :
  read_ok (db w) = false ->
  (forall u, check_user_exists u w =
             Done false (log_call w (CSelect USERS_TABLE (Some ("user_id", u)))) []) /\
  (forall u, u <> "" ->
     exists w' out, login_submit u w = Done LoginUserNotFound w' out /\
                    logged_in_user w' = logged_in_user w) /\
  (forall u e rem, u <> "" -> e <> "" -> is_valid_email e = true ->
     exists o w' out, registration_submit u e rem w = Done o w' out /\
       o <> RegUsernameTaken /\
       In (CInsert USERS_TABLE [("user_id", u); ("email", e)]) (calls w')).
Proof.
  intros Hok; split; [|split].
  - intros u; exact (check_user_exists_outage u w Hok).
  - intros u Hu; unfold login_submit.
    apply String.eqb_neq in Hu; rewrite Hu.
    unfold bind at 1; rewrite (check_user_exists_outage u w Hok); simpl.
    eexists _, _; split; reflexivity.
  - intros u e rem Hu He Hv; unfold registration_submit.
    apply String.eqb_neq in Hu, He; rewrite Hu, He, Hv; simpl.
    unfold bind at 1; rewrite (check_user_exists_outage u w Hok); simpl.
    unfold register_new_user, bind, insert, cache_clear, modify, emit, ret; simpl.
    destruct (write_ok (db w)), rem; simpl; eexists _, _, _; (split; [reflexivity|]);
      (split; [discriminate|]); apply in_or_app; right; simpl; auto.
Qed.

Lemma read_outage_user_exists_false_witness :
  read_ok (db read_outage_world) = false /\
  ((forall u, check_user_exists u read_outage_world =
      Done false (log_call read_outage_world (CSelect USERS_TABLE (Some ("user_id", u)))) []) /\
   (forall u, u <> "" ->
      exists w' out, login_submit u read_outage_world = Done LoginUserNotFound w' out /\
                     logged_in_user w' = logged_in_user read_outage_world) /\
   (forall u e rem, u <> "" -> e <> "" -> is_valid_email e = true ->
      exists o w' out, registration_submit u e rem read_outage_world = Done o w' out /\
        o <> RegUsernameTaken /\
        In (CInsert USERS_TABLE [("user_id", u); ("email", e)]) (calls w'))).
Proof.
  split; [reflexivity|].
  apply (read_outage_user_exists_false read_outage_world); reflexivity.
Defined.

(** *** The daily form *)

Lemma all_filled_false i :
  in_g1 i = "" \/ in_r1 i = "" \/ in_g2 i = "" \/ in_r2 i = "" \/
  in_g3 i = "" \/ in_r3 i = "" -> all_filled i = false.
Proof.
  unfold all_filled; intros H.
  repeat destruct H as [H|H]; rewrite H; simpl; rewrite ?andb_false_r; reflexivity.
Qed.

(** [C6] A daily submission with at least one empty field of the six is
    rejected with the "Please fill in all 3 gratitude items" error and
    the world is left exactly as it was: no request, no write. *)
Theorem daily_submit_empty_field_no_write user today_str i w :
  in_g1 i = "" \/ in_r1 i = "" \/ in_g2 i = "" \/ in_r2 i = "" \/
  in_g3 i = "" \/ in_r3 i = "" ->
  gratitude_submit user today_str i w =
    Done tt w [WText "Please fill in all 3 gratitude items and their reasons."].
Proof.
  intros H; unfold gratitude_submit; rewrite (all_filled_false i H); reflexivity.
Qed.

Lemma daily_submit_empty_field_no_write_witness :
  let i := {| in_g1 := "tea"; in_r1 := ""; in_g2 := "a friend"; in_r2 := "kind";
              in_g3 := "a task"; in_r3 := "done" |} in
  (in_g1 i = "" \/ in_r1 i = "" \/ in_g2 i = "" \/ in_r2 i = "" \/
   in_g3 i = "" \/ in_r3 i = "") /\
  gratitude_submit "Sarah9012" "2024-06-03" i read_outage_world =
    Done tt read_outage_world [WText "Please fill in all 3 gratitude items and their reasons."].
Proof.
  intros i.
  assert (H : in_g1 i = "" \/ in_r1 i = "" \/ in_g2 i = "" \/ in_r2 i = "" \/
              in_g3 i = "" \/ in_r3 i = "") by (right; left; reflexivity).
  split; [exact H | apply (daily_submit_empty_field_no_write _ _ i _ H)].
Defined.

Lemma load_user_data_fresh t u w :
  cache w = [] -> read_ok (db w) = true ->
  exists w', load_user_data t u w =
             Done (DataFrame (filter (eq_filter (Some ("user_id", u))) (table_rows (db w) t))) w' [].
Proof.
  intros Hc Hok; unfold load_user_data, cached, bind, gets, select; simpl.
  rewrite Hc; simpl. rewrite Hok; simpl. eexists; reflexivity.
Qed.

Lemma sidebar_history_has_today su df sel today_str w :
  In today_str (column "date" df) ->
  exists dd w' out, sidebar_history su df sel w = Done dd w' out /\
                    has_submitted_today today_str dd = true.
Proof.
  intros Ht; unfold sidebar_history.
  assert (Hne : df_empty df = false).
  { apply In_column in Ht as (r & Hr & _); unfold df_empty.
    destruct (df_rows df); [contradiction|reflexivity]. }
  rewrite Hne.
  assert (Hd : In today_str (sorted_desc (unique (column "date" df))))
    by now rewrite In_sorted_desc, In_unique.
  assert (Hhas : has_submitted_today today_str (Some (sorted_desc (unique (column "date" df)))) = true).
  { unfold has_submitted_today.
    destruct (sorted_desc (unique (column "date" df))) as [|d0 ds]; [contradiction|].
    change (existsb (String.eqb today_str) (d0 :: ds) = true).
    apply existsb_exists; exists today_str; split; [exact Hd | apply String.eqb_refl]. }
  destruct (sorted_desc (unique (column "date" df))) as [|d0 ds] eqn:Es; [contradiction|].
  set (sd := nth sel (d0 :: ds) d0).
  assert (Hsd : In sd (column "date" df)).
  { rewrite <- In_unique, <- In_sorted_desc, Es.
    unfold sd; destruct (Nat.lt_ge_cases sel (List.length (d0 :: ds))).
    - now apply nth_In.
    - rewrite nth_overflow by assumption; now left. }
  apply In_column in Hsd as (r & Hr & Hrd).
  unfold bind, emit; simpl.
  destruct (String.eqb sd "").
  - eexists _, _, _; split; [reflexivity | exact Hhas].
  - set (hist := if su then df else drop_column "user_id" df).
    assert (Hin : In r (df_rows df)) by exact Hr.
    assert (Hf : exists r', In r' (filter (date_is sd) (df_rows hist))).
    { destruct su; unfold hist.
      - exists r; apply filter_In; split; [exact Hr|]. unfold date_is; rewrite Hrd.
        apply String.eqb_refl.
      - exists (filter (fun kv => negb (String.eqb "user_id" (fst kv))) r).
        apply filter_In; split.
        + simpl; now apply in_map.
        + unfold date_is; rewrite dget_drop; simpl; rewrite Hrd; apply String.eqb_refl. }
    destruct Hf as [r' Hr'].
    destruct (filter (date_is sd) (df_rows hist)); [contradiction|].
    eexists _, _, _; split; [reflexivity | exact Hhas].
Qed.

Lemma all_filled_true i :
  in_g1 i <> "" -> in_r1 i <> "" -> in_g2 i <> "" -> in_r2 i <> "" ->
  in_g3 i <> "" -> in_r3 i <> "" -> all_filled i = true.
Proof.
  unfold all_filled; intros H1 H2 H3 H4 H5 H6.
  apply String.eqb_neq in H1, H2, H3, H4, H5, H6.
  now rewrite H1, H2, H3, H4, H5, H6.
Qed.

(** [C5] A daily submission with six non-empty fields, while the backend
    accepts writes, appends one [daily_gratitude] row whose [user_id],
    [date] and six fields are exactly the user, today and the inputs, and
    ends the run with [st.rerun()].  On the next run (the write cleared
    the read cache), while the backend answers reads, the user's history
    is reloaded and [has_submitted_today] is [True]. *)
Theorem daily_submit_roundtrip user today_str i w su sel :
  in_g1 i <> "" -> in_r1 i <> "" -> in_g2 i <> "" -> in_r2 i <> "" ->
  in_g3 i <> "" -> in_r3 i <> "" ->
  write_ok (db w) = true -> read_ok (db w) = true ->
  exists w1 out r,
    gratitude_submit user today_str i w = Stop StopRerun w1 out /\
    daily (db w1) = daily (db w) ++ [r] /\
    dget "user_id" r = Some user /\ dget "date" r = Some today_str /\
    dget "g1" r = Some (in_g1 i) /\ dget "r1" r = Some (in_r1 i) /\
    dget "g2" r = Some (in_g2 i) /\ dget "r2" r = Some (in_r2 i) /\
    dget "g3" r = Some (in_g3 i) /\ dget "r3" r = Some (in_r3 i) /\
    exists dd w2 out2,
      (df <- load_user_data DAILY_TABLE user ;; sidebar_history su df sel) w1
        = Done dd w2 out2 /\
      has_submitted_today today_str dd = true.
Proof.
  intros H1 H2 H3 H4 H5 H6 Hw Hr.
  unfold gratitude_submit; rewrite (all_filled_true i H1 H2 H3 H4 H5 H6).
  set (r := daily_row user {| e_date := today_str;
         gratitude_1 := in_g1 i; reason_1 := in_r1 i;
         gratitude_2 := in_g2 i; reason_2 := in_r2 i;
         gratitude_3 := in_g3 i; reason_3 := in_r3 i |}).
  set (w1 := set_cache (set_db (log_call w (CInsert DAILY_TABLE r))
                               (table_insert (db w) DAILY_TABLE r)) []).
  assert (Hrun : gratitude_submit user today_str i w =
                 Stop StopRerun w1 [WText "Daily Gratitude saved"]).
  { unfold gratitude_submit; rewrite (all_filled_true i H1 H2 H3 H4 H5 H6).
    unfold save_daily_entry, insert_to_supabase, bind, insert, cache_clear, modify,
      emit, ret, st_rerun; rewrite Hw; reflexivity. }
  unfold gratitude_submit in Hrun; rewrite (all_filled_true i H1 H2 H3 H4 H5 H6) in Hrun.
  exists w1, [WText "Daily Gratitude saved"], r.
  split; [exact Hrun|].
  split; [reflexivity|].
  do 8 (split; [reflexivity|]).
  destruct (load_user_data_fresh DAILY_TABLE user w1 eq_refl Hr) as [w1' Hl].
  assert (Ht : In today_str (column "date"
      (DataFrame (filter (eq_filter (Some ("user_id", user))) (table_rows (db w1) DAILY_TABLE))))).
  { apply In_column; exists r; split; [|reflexivity].
    unfold DataFrame; simpl df_rows.
    apply filter_In; split.
    - change (In r (daily (db w) ++ [r])); apply in_or_app; right; now left.
    - simpl; apply String.eqb_refl. }
  destruct (sidebar_history_has_today su _ sel today_str w1' Ht) as (dd & w2 & out2 & Hs & Hh).
  exists dd, w2, ([] ++ out2); split; [|exact Hh].
  unfold bind at 1; rewrite Hl, Hs; reflexivity.
Qed.

Lemma daily_submit_roundtrip_witness :
  write_ok (db daily_world) = true /\ read_ok (db daily_world) = true /\
  exists w1 out r,
    gratitude_submit "Sarah9012" "2024-06-03" sarah_input daily_world = Stop StopRerun w1 out /\
    daily (db w1) = daily (db daily_world) ++ [r] /\
    dget "user_id" r = Some "Sarah9012" /\ dget "date" r = Some "2024-06-03" /\
    dget "g1" r = Some (in_g1 sarah_input) /\ dget "r1" r = Some (in_r1 sarah_input) /\
    dget "g2" r = Some (in_g2 sarah_input) /\ dget "r2" r = Some (in_r2 sarah_input) /\
    dget "g3" r = Some (in_g3 sarah_input) /\ dget "r3" r = Some (in_r3 sarah_input) /\
    exists dd w2 out2,
      (df <- load_user_data DAILY_TABLE "Sarah9012" ;; sidebar_history false df 0) w1
        = Done dd w2 out2 /\
      has_submitted_today "2024-06-03" dd = true.
Proof.
  split; [reflexivity|]. split; [reflexivity|].
  apply (daily_submit_roundtrip "Sarah9012" "2024-06-03" sarah_input daily_world false 0);
    try discriminate; reflexivity.
Defined.

(** *** What the logged-in page shows *)

Ltac eo_page :=
  repeat (first
    [ progress cbv zeta
    | apply eo_load_user_data
    | apply eo_load_all_data
    | apply eo_insert_to_supabase
    | eo_step
    | progress unfold sidebar_history, tab_daily, tab_weekly, gratitude_submit,
        save_daily_entry, save_weekly_letter, cache_clear ]).

(** The widgets of a regular user's page: all of them come from this
    list, whatever the backend, the cache and the user's actions. *)
Lemma regular_page_emits (P : widget -> Prop) sec today user inp :
  text_ok P ->
  (forall opts, P (WSelectbox opts)) ->
  P (WFields ["g1"; "r1"]) -> P (WFields ["letter_content"]) ->
  P (WDataframe TodayEntry ["g1"; "r1"; "g2"; "r2"; "g3"; "r3"]) ->
  P WDailyForm -> P WWeeklyForm ->
  (forall df, P (WDataframe (UserRows WEEKLY_TABLE) (df_cols (drop_column "user_id" df)))) ->
  is_superuser sec user = false ->
  emits_only P (main_page sec today user inp).
Proof.
  intros HT HS HF1 HF2 HE HD HW HH Hsu.
  unfold main_page; cbv zeta; rewrite Hsu.
  eo_page; auto.
Qed.

Lemma drop_column_hides c df : ~ In c (df_cols (drop_column c df)).
Proof.
  simpl; rewrite filter_In; intros [_ H].
  rewrite String.eqb_refl in H; discriminate.
Qed.

Lemma not_in_literal c cs : existsb (String.eqb c) cs = false -> ~ In c cs.
Proof.
  intros H Hin; apply Bool.not_true_iff_false in H; apply H.
  apply existsb_exists; exists c; split; [exact Hin | apply String.eqb_refl].
Qed.

Lemma dget_in_keys k r : dget k r <> None -> In k (map fst r).
Proof.
  induction r as [|[k' v] r IH]; simpl; [congruence|].
  destruct (String.eqb_spec k k') as [<-|]; [now left|].
  intros H; right; now apply IH.
Qed.

(** *** The frames the read cache holds *)

Lemma frames_ok_nil w : cache w = [] -> frames_ok w.
Proof. intros H k df o; rewrite H; discriminate. Qed.

Lemma filter_no_filter rs : filter (eq_filter None) rs = rs.
Proof. induction rs as [|r rs IH]; simpl; [reflexivity | now rewrite IH]. Qed.

Lemma load_all_data_frame t w :
  frames_ok w ->
  exists df w1 o1,
    load_all_data t w = Done df w1 o1 /\ df = DataFrame (df_rows df) /\ frames_ok w1 /\
    (cache_find (KAll t) (cache w) = None ->
       df_rows df = if read_ok (db w) then table_rows (db w) t else []).
Proof.
  intros H; unfold load_all_data, cached.
  destruct (cache_find (KAll t) (cache w)) as [[df o]|] eqn:Ec.
  - exists df, w, (map WText o); split; [reflexivity|].
    split; [exact (H _ _ _ Ec)|]. split; [exact H|]. discriminate.
  - unfold bind, select, emit, ret; destruct (read_ok (db w)) eqn:Er; simpl.
    + eexists _, _, _; split; [reflexivity|]. split; [reflexivity|]. split.
      * intros k df o Hf; simpl in Hf; destruct (cache_key_eqb k (KAll t)).
        -- injection Hf as <- _; reflexivity.
        -- exact (H _ _ _ Hf).
      * intros _; apply filter_no_filter.
    + eexists _, _, _; split; [reflexivity|]. split; [reflexivity|]. split.
      * intros k df o Hf; simpl in Hf; destruct (cache_key_eqb k (KAll t)).
        -- injection Hf as <- _; reflexivity.
        -- exact (H _ _ _ Hf).
      * intros _; reflexivity.
Qed.

Lemma keeps_frames_load_all t : keeps frames_ok (load_all_data t).
Proof.
  intros w H; destruct (load_all_data_frame t w H) as (df & w1 & o1 & Hl & _ & H1 & _).
  rewrite Hl; exact H1.
Qed.

Lemma keeps_frames_load_user t u : keeps frames_ok (load_user_data t u).
Proof.
  intros w H; unfold load_user_data, cached.
  destruct (cache_find (KUser t u) (cache w)) as [[df o]|]; [exact H|].
  unfold bind, select, emit, ret; destruct (read_ok (db w)); simpl;
    intros k df o Hf; simpl in Hf; destruct (cache_key_eqb k (KUser t u));
    solve [injection Hf as <- _; reflexivity | exact (H _ _ _ Hf)].
Qed.

Lemma keeps_frames_insert t r : keeps frames_ok (insert t r).
Proof. intros w H; unfold insert; destruct (write_ok (db w)); exact H. Qed.

Ltac keeps_frames :=
  repeat (first
    [ progress cbv zeta
    | apply keeps_frames_load_user
    | apply keeps_frames_load_all
    | apply keeps_frames_insert
    | apply keeps_select; intros ? ? Hw; exact Hw
    | keeps_step
    | progress unfold sidebar_history, tab_daily, tab_weekly, gratitude_submit,
        save_daily_entry, save_weekly_letter, insert_to_supabase, cache_clear,
        login_page, login_submit, registration_submit, register_new_user,
        check_user_exists, main_page ]);
  try (intros ? ?; apply frames_ok_nil; reflexivity);
  try (intros ? Hw; exact Hw).

(** The superuser's all-data view of table [t] (tab 1 or tab 2): the
    header, the messages of [load_all_data(t)], then the frame it
    returns. *)
Lemma superuser_tab_view (tab : script unit) header t w :
  tab = (emit (WText header) ;; df_all <- load_all_data t ;;
         emit (WDataframe (AllRows t) (df_cols df_all))) ->
  frames_ok w ->
  exists df_all w1 o1,
    load_all_data t w = Done df_all w1 o1 /\
    tab w = Done tt w1 (WText header :: o1 ++ [WDataframe (AllRows t) (df_cols df_all)]) /\
    match df_rows df_all with
    | [] => df_cols df_all = []
    | r :: _ => df_cols df_all = map fst r /\ (dget "user_id" r <> None -> In "user_id" (df_cols df_all))
    end /\
    (cache_find (KAll t) (cache w) = None ->
       df_rows df_all = if read_ok (db w) then table_rows (db w) t else []).
Proof.
  intros -> H.
  destruct (load_all_data_frame t w H) as (df_all & w1 & o1 & Hl & Hdf & _ & Hm).
  exists df_all, w1, o1; split; [exact Hl|]. split.
  - unfold bind at 1; unfold emit at 1; cbv beta iota.
    unfold bind at 1; rewrite Hl; reflexivity.
  - split; [|exact Hm].
    pose proof (f_equal df_cols Hdf) as Hc; simpl in Hc.
    destruct (df_rows df_all) as [|r rs]; [exact Hc|].
    split; [exact Hc|]. intros Hu; rewrite Hc; now apply dget_in_keys.
Qed.

Lemma sidebar_history_fields su df sel :
  emits_only (fun wd => match wd with
                        | WFields cs => cs = ["g1"; "r1"]
                        | WDataframe _ _ => False
                        | _ => True
                        end) (sidebar_history su df sel).
Proof. unfold sidebar_history; cbv zeta; repeat eo_step; simpl; auto. Qed.

(** [C7] (as amended) No widget of a regular user's page shows a
    [user_id] column or field, whatever the backend and the cache hold.
    In every world reached by runs of the app from an empty cache, the
    superuser's all-data view of each table is the frame
    [load_all_data] returns, which is a [pd.DataFrame] of its rows: it
    shows the [user_id] column when the table it loads is non-empty and
    its rows carry [user_id], and no column at all when that table is
    empty or, on a fresh load, unreadable.  The sidebar history of
    every user shows only the fields [g1] and [r1] and no frame. *)
Theorem history_user_id_column :
  (forall w, cache w = [] -> frames_ok w) /\
  (forall sec today inp, keeps frames_ok (app sec today inp)) /\
  (forall sec today user inp,
     is_superuser sec user = false ->
     emits_only (fun wd => ~ shows_column "user_id" wd) (main_page sec today user inp)) /\
  (forall su df sel,
     emits_only (fun wd => match wd with
                           | WFields cs => cs = ["g1"; "r1"]
                           | WDataframe _ _ => False
                           | _ => True
                           end) (sidebar_history su df sel)) /\
  (forall user today_str df dd inp w,
     frames_ok w ->
     exists df_all w1 o1,
       load_all_data DAILY_TABLE w = Done df_all w1 o1 /\
       tab_daily true user today_str df dd inp w =
         Done tt w1 (WText "Daily Gratitude - ALL DATA" :: o1 ++
                     [WDataframe (AllRows DAILY_TABLE) (df_cols df_all)]) /\
       match df_rows df_all with
       | [] => df_cols df_all = []
       | r :: _ => df_cols df_all = map fst r /\
                   (dget "user_id" r <> None -> In "user_id" (df_cols df_all))
       end /\
       (cache_find (KAll DAILY_TABLE) (cache w) = None ->
          df_rows df_all = if read_ok (db w) then daily (db w) else [])) /\
  (forall user today df inp w,
     frames_ok w ->
     exists df_all w1 o1,
       load_all_data WEEKLY_TABLE w = Done df_all w1 o1 /\
       tab_weekly true user today df inp w =
         Done tt w1 (WText "Weekly Letters - ALL DATA" :: o1 ++
                     [WDataframe (AllRows WEEKLY_TABLE) (df_cols df_all)]) /\
       match df_rows df_all with
       | [] => df_cols df_all = []
       | r :: _ => df_cols df_all = map fst r /\
                   (dget "user_id" r <> None -> In "user_id" (df_cols df_all))
       end /\
       (cache_find (KAll WEEKLY_TABLE) (cache w) = None ->
          df_rows df_all = if read_ok (db w) then weekly (db w) else [])).
Proof.
  split; [exact frames_ok_nil|]. split.
  { intros sec today inp; unfold app; keeps_frames. }
  split.
  { intros sec today user inp Hsu.
    apply regular_page_emits; [intros ? ?; exact H | intros ? ? ; exact H
      | apply not_in_literal; reflexivity | apply not_in_literal; reflexivity
      | apply not_in_literal; reflexivity | intros H; exact H | intros H; exact H
      | intros df; apply drop_column_hides | exact Hsu]. }
  split; [exact sidebar_history_fields|].
  split.
  - intros user today_str df dd inp w H.
    exact (superuser_tab_view _ "Daily Gratitude - ALL DATA" DAILY_TABLE w eq_refl H).
  - intros user today df inp w H.
    exact (superuser_tab_view _ "Weekly Letters - ALL DATA" WEEKLY_TABLE w eq_refl H).
Qed.

(** [C7] counterexample: with no daily entry and no weekly letter in the
    backend, the superuser's page shows both all-data frames with no
    column at all, and no widget of the page shows [user_id]. *)
Lemma history_user_id_column_counterexample :
  is_superuser admin_secrets "admin" = true /\
  match main_page admin_secrets (Dates.ymd2ord 2024 6 3) "admin" no_action empty_world with
  | Done _ _ out =>
      In (WDataframe (AllRows DAILY_TABLE) []) out /\
      In (WDataframe (AllRows WEEKLY_TABLE) []) out /\
      Forall (fun wd => ~ shows_column "user_id" wd) out
  | Stop _ _ _ => False
  end.
Proof.
  split; [reflexivity|].
  vm_compute. split; [|split].
  - repeat (first [now left | right]).
  - repeat (first [now left | right]).
  - repeat constructor; simpl; tauto.
Qed.

(** [C10] Without an [[admin]] table in the secrets, or without its
    [superuser_name] key, [is_superuser] is [False] for every user, and
    no run of the logged-in page shows an all-rows frame. *)
Theorem no_admin_config_not_superuser sec :
  sec_admin sec = None \/ (exists a, sec_admin sec = Some a /\ dget "superuser_name" a = None) ->
  (forall user, is_superuser sec user = false) /\
  (forall today user inp,
     emits_only (fun wd => forall t cs, wd <> WDataframe (AllRows t) cs)
                (main_page sec today user inp)).
Proof.
  intros Hsec.
  assert (Hsu : forall user, is_superuser sec user = false).
  { intros user; unfold is_superuser.
    destruct Hsec as [-> | (a & -> & Ha)]; [reflexivity|]. now rewrite Ha. }
  split; [exact Hsu|].
  intros today user inp.
  apply regular_page_emits; try (intros *); try discriminate; auto.
Qed.

Lemma no_admin_config_not_superuser_witness :
  let sec := {| secrets_file := true;
                sec_supabase := Some [("url", "https://example.supabase.co"); ("key", "k")];
                sec_admin := None; client_ok := true |} in
  (sec_admin sec = None \/ (exists a, sec_admin sec = Some a /\ dget "superuser_name" a = None)) /\
  ((forall user, is_superuser sec user = false) /\
   (forall today user inp,
      emits_only (fun wd => forall t cs, wd <> WDataframe (AllRows t) cs)
                 (main_page sec today user inp))).
Proof.
  intros sec.
  assert (H : sec_admin sec = None \/
              (exists a, sec_admin sec = Some a /\ dget "superuser_name" a = None))
    by (left; reflexivity).
  split; [exact H | apply (no_admin_config_not_superuser sec H)].
Defined.

End AppFacts.

Module ReminderFacts.
Import Reminder Inputs.
Local Open Scope list_scope.

(** [C1] (code bug) The job emails nobody.  The user query continues
    the select builder with [.not_eq], a method postgrest's builder does
    not have: the [AttributeError] is caught, [fetch_users_for_reminder]
    returns an empty frame and [main] prints "No users found" and ends.
    So whatever the configuration, the client and the [user_data] table,
    no run sends an email; once configured and connected a run does
    nothing else than create the client and attempt the fetch. *)
Theorem reminder_job_emails_nobody (e : env) (client_ok : bool) (resp : option (list row)) :
  fetch_users_for_reminder resp = [] /\
  emailed (fst (run e client_ok resp)) = [] /\
  (config_ok e = true -> client_ok = true ->
     run e client_ok resp = ([ECreateClient; EFetchUsers], Finished)).
Proof.
  assert (Hf : fetch_users_for_reminder resp = []) by reflexivity.
  split; [exact Hf|].
  unfold run, main; rewrite Hf.
  split.
  - destruct (negb (config_ok e)), (negb client_ok); reflexivity.
  - intros Hc Hk; rewrite Hc, Hk; reflexivity.
Qed.

(** The failing input of the specification's example: users A, B and C
    all have an email and B has submitted today.  The specification's
    [to_remind] is [{A, C}]; the run emails no one. *)
Lemma reminder_job_emails_nobody_witness :
  spec_to_remind users_ABC ["B"] = ["A"; "C"] /\
  config_ok env_ok = true /\
  emailed (fst (run env_ok true (Some users_ABC))) = [] /\
  run env_ok true (Some users_ABC) = ([ECreateClient; EFetchUsers], Finished).
Proof.
  assert (Hc : config_ok env_ok = true) by reflexivity.
  destruct (reminder_job_emails_nobody env_ok true (Some users_ABC)) as (_ & He & Hr).
  split; [reflexivity|]. split; [exact Hc|]. split; [exact He|].
  exact (Hr Hc eq_refl).
Defined.

(** [C8] If any of the five environment variables is unset, the run
    exits with code 1 before it does anything: no client is created and
    no email is sent. *)
Theorem missing_config_exits_1 (e : env) (client_ok : bool) (resp : option (list row)) :
  SUPABASE_URL e = None \/ SUPABASE_KEY e = None \/ MAILJET_PUBLIC_KEY e = None \/
  MAILJET_SECRET_KEY e = None \/ SENDER_EMAIL e = None ->
  run e client_ok resp = ([], ExitCode 1).
Proof.
  intros H; unfold run, config_ok.
  repeat destruct H as [H|H]; rewrite H; simpl; rewrite ?andb_false_r; reflexivity.
Qed.

Lemma missing_config_exits_1_witness :
  let e := {| SUPABASE_URL := Some "https://example.supabase.co"; SUPABASE_KEY := Some "k";
              MAILJET_PUBLIC_KEY := Some "pub"; MAILJET_SECRET_KEY := None;
              SENDER_EMAIL := Some "sneha@example.com" |} in
  (SUPABASE_URL e = None \/ SUPABASE_KEY e = None \/ MAILJET_PUBLIC_KEY e = None \/
   MAILJET_SECRET_KEY e = None \/ SENDER_EMAIL e = None) /\
  run e true (Some users_ABC) = ([], ExitCode 1).
Proof.
  intros e.
  assert (H : SUPABASE_URL e = None \/ SUPABASE_KEY e = None \/ MAILJET_PUBLIC_KEY e = None \/
              MAILJET_SECRET_KEY e = None \/ SENDER_EMAIL e = None)
    by (right; right; right; left; reflexivity).
  split; [exact H | apply (missing_config_exits_1 e true (Some users_ABC) H)].
Defined.

End ReminderFacts.

Module AppExtra.
Import App Views Invariants AppFacts.
Local Open Scope list_scope.

Local Notation "x <- m ;; k" := (bind m (fun x => k))
  (at level 61, m at next level, right associativity).
Local Notation "m ;; k" := (bind m (fun _ => k)) (at level 61, right associativity).

(** *** The per-user read cache *)

Lemma cache_ok_log w c : cache_ok w -> cache_ok (log_call w c).
Proof. intros H; exact H. Qed.

Lemma cache_ok_nil w : cache w = [] -> cache_ok w.
Proof. intros H t u df; rewrite H; discriminate. Qed.

Lemma keeps_cache_insert t r : keeps cache_ok (insert t r).
Proof.
  intros w H; unfold insert; destruct (write_ok (db w)); exact H.
Qed.

Lemma keeps_cache_load_all t : keeps cache_ok (load_all_data t).
Proof.
  intros w H; unfold load_all_data, cached.
  destruct (cache_find (KAll t) (cache w)) as [[df o]|]; [exact H|].
  unfold bind, select, emit, ret; destruct (read_ok (db w)); simpl;
    intros t' u' df' o' Hf; simpl in Hf; exact (H t' u' df' o' Hf).
Qed.

Lemma filter_user_rows u rs :
  Forall (fun r => dget "user_id" r = Some u) (filter (eq_filter (Some ("user_id", u))) rs).
Proof.
  apply Forall_forall; intros r Hr; apply filter_In in Hr as [_ Hr].
  simpl in Hr; destruct (dget "user_id" r); [|discriminate].
  apply String.eqb_eq in Hr; now subst.
Qed.

(** What [load_user_data t u] returns from a world whose cache is fine:
    only rows of [u], and the cache stays fine. *)
Lemma load_user_data_rows t u w :
  cache_ok w ->
  match load_user_data t u w with
  | Done df w' _ => Forall (fun r => dget "user_id" r = Some u) (df_rows df) /\ cache_ok w'
  | Stop _ _ _ => False
  end.
Proof.
  intros H; unfold load_user_data, cached.
  destruct (cache_find (KUser t u) (cache w)) as [[df o]|] eqn:Ec.
  - split; [exact (H t u df o Ec) | exact H].
  - unfold bind, select, emit, ret; destruct (read_ok (db w)); simpl.
    + assert (Hrows : Forall (fun r => dget "user_id" r = Some u)
               (filter (eq_filter (Some ("user_id", u))) (table_rows (db w) t)))
        by apply filter_user_rows.
      split; [exact Hrows|].
      intros t' u' df' o' Hf; simpl in Hf.
      destruct (String.eqb t' t && String.eqb u' u) eqn:Ek.
      * apply andb_prop in Ek as [_ Ek]; apply String.eqb_eq in Ek; subst.
        injection Hf as <- _; exact Hrows.
      * exact (H t' u' df' o' Hf).
    + split; [constructor|].
      intros t' u' df' o' Hf; simpl in Hf.
      destruct (String.eqb t' t && String.eqb u' u) eqn:Ek.
      * injection Hf as <- _; constructor.
      * exact (H t' u' df' o' Hf).
Qed.

Lemma keeps_cache_load_user t u : keeps cache_ok (load_user_data t u).
Proof.
  intros w H; pose proof (load_user_data_rows t u w H) as Hl.
  destruct (load_user_data t u w); [exact (proj2 Hl) | contradiction].
Qed.

Ltac keeps_cache :=
  repeat (first
    [ progress cbv zeta
    | apply keeps_cache_load_user
    | apply keeps_cache_load_all
    | apply keeps_cache_insert
    | apply keeps_select; apply cache_ok_log
    | keeps_step
    | progress unfold sidebar_history, tab_daily, tab_weekly, gratitude_submit,
        save_daily_entry, save_weekly_letter, insert_to_supabase, cache_clear,
        login_page, login_submit, registration_submit, register_new_user,
        check_user_exists, main_page ]);
  try (intros ? ?; apply cache_ok_nil; reflexivity);
  try (intros ? Hw; exact Hw).

(** Privacy of the cached reads: in every world reached by runs of the
    app from a world whose cache is fine (an empty cache is), every frame
    [load_user_data(t, u)] returns holds only rows whose [user_id] is
    [u], also when it comes from the cache. *)
Theorem load_user_data_only_own_rows :
  (forall w, cache w = [] -> cache_ok w) /\
  (forall sec today inp, keeps cache_ok (app sec today inp)) /\
  (forall t u w, cache_ok w ->
     match load_user_data t u w with
     | Done df _ _ => Forall (fun r => dget "user_id" r = Some u) (df_rows df)
     | Stop _ _ _ => False
     end).
Proof.
  split; [exact cache_ok_nil|]. split.
  - intros sec today inp; unfold app; keeps_cache.
  - intros t u w H; pose proof (load_user_data_rows t u w H) as Hl.
    destruct (load_user_data t u w); [exact (proj1 Hl) | contradiction].
Qed.

(** *** Reads, writes and the cache *)



(** *** Login and registration *)

(** With the backend answering reads, a non-empty username logs in
    exactly when some [user_data] row carries it, and the session then
    holds that username; an empty username is refused before any
    request. *)
Theorem login_iff_registered u w :
  read_ok (db w) = true ->
  (u = "" -> login_submit u w = Done LoginMissingField w [WText "Please enter your username."]) /\
  (u <> "" ->
     exists o w' out, login_submit u w = Done o w' out /\
       (o = LoginOk <-> exists r, In r (users (db w)) /\ dget "user_id" r = Some u) /\
       logged_in_user w' = (match o with LoginOk => Some u | _ => logged_in_user w end) /\
       db w' = db w).
Proof.
  intros Hr; split.
  - intros ->; reflexivity.
  - intros Hu; unfold login_submit; apply String.eqb_neq in Hu; rewrite Hu.
    unfold check_user_exists, bind, select, ret, modify, emit; rewrite Hr; simpl.
    replace (table_rows (db w) USERS_TABLE) with (users (db w)) by reflexivity.
    destruct (filter (eq_filter (Some ("user_id", u))) (users (db w))) as [|r0 rs] eqn:Ef;
      simpl; eexists _, _, _; (split; [reflexivity|]); (split; [|split; reflexivity]).
    + split; [discriminate|]. intros (r & Hin & Hid).
      assert (In r (filter (eq_filter (Some ("user_id", u))) (users (db w)))) as Hf.
      { apply filter_In; split; [exact Hin|]. simpl; rewrite Hid; apply String.eqb_refl. }
      rewrite Ef in Hf; contradiction.
    + split; [intros _|reflexivity].
      assert (In r0 (filter (eq_filter (Some ("user_id", u))) (users (db w)))) as Hf
        by (rewrite Ef; now left).
      apply filter_In in Hf as [Hin Hid]; exists r0; split; [exact Hin|].
      simpl in Hid; destruct (dget "user_id" r0); [|discriminate].
      apply String.eqb_eq in Hid; now subst.
Qed.

Lemma login_iff_registered_witness :
  read_ok (db Views.registered_world) = true /\
  ("Sarah9012" = "" -> login_submit "Sarah9012" Views.registered_world =
      Done LoginMissingField Views.registered_world [WText "Please enter your username."]) /\
  ("Sarah9012" <> "" ->
     exists o w' out, login_submit "Sarah9012" Views.registered_world = Done o w' out /\
       (o = LoginOk <-> exists r, In r (users (db Views.registered_world)) /\
                                  dget "user_id" r = Some "Sarah9012") /\
       logged_in_user w' = (match o with LoginOk => Some "Sarah9012"
                                  | _ => logged_in_user Views.registered_world end) /\
       db w' = db Views.registered_world).
Proof.
  assert (H : read_ok (db Views.registered_world) = true) by reflexivity.
  split; [exact H | exact (login_iff_registered "Sarah9012" Views.registered_world H)].
Defined.

Lemma login_submit_found u r w :
  u <> "" -> read_ok (db w) = true -> In r (users (db w)) -> dget "user_id" r = Some u ->
  exists w' out, login_submit u w = Done LoginOk w' out /\ logged_in_user w' = Some u.
Proof.
  intros Hu Hr Hin Hid.
  unfold login_submit; apply String.eqb_neq in Hu; rewrite Hu.
  unfold check_user_exists, bind, select, ret, modify, emit; rewrite Hr; simpl.
  replace (table_rows (db w) USERS_TABLE) with (users (db w)) by reflexivity.
  assert (Hf : In r (filter (eq_filter (Some ("user_id", u))) (users (db w)))).
  { apply filter_In; split; [exact Hin|]. simpl; rewrite Hid; apply String.eqb_refl. }
  destruct (filter (eq_filter (Some ("user_id", u))) (users (db w))); [contradiction|].
  simpl; eexists _, _; split; reflexivity.
Qed.

(** A successful registration, then a login: with valid fields, a
    username no row carries, and a backend that answers, registration
    appends exactly the row [{user_id, email}], clears the read cache and
    logs the session in; a later login with the same username succeeds. *)
Theorem register_then_login u e rem w :
  u <> "" -> e <> "" -> is_valid_email e = true ->
  read_ok (db w) = true -> write_ok (db w) = true ->
  (forall r, In r (users (db w)) -> dget "user_id" r <> Some u) ->
  exists w' out,
    registration_submit u e rem w = Done RegLoggedIn w' out /\
    users (db w') = users (db w) ++ [[("user_id", u); ("email", e)]] /\
    cache w' = [] /\ logged_in_user w' = Some u /\
    exists w'' out', login_submit u (set_user w' None) = Done LoginOk w'' out' /\
                     logged_in_user w'' = Some u.
Proof.
  intros Hu He Hv Hr Hw Hnew.
  unfold registration_submit.
  apply String.eqb_neq in Hu, He; rewrite Hu, He, Hv; simpl.
  assert (Hnil : filter (eq_filter (Some ("user_id", u))) (users (db w)) = []).
  { destruct (filter (eq_filter (Some ("user_id", u))) (users (db w))) as [|r rs] eqn:Ef;
      [reflexivity|].
    assert (In r (filter (eq_filter (Some ("user_id", u))) (users (db w)))) as Hf
      by (rewrite Ef; now left).
    apply filter_In in Hf as [Hin Hid]; simpl in Hid.
    destruct (dget "user_id" r) eqn:Ed; [|discriminate].
    apply String.eqb_eq in Hid; subst; exfalso; exact (Hnew r Hin Ed). }
  unfold check_user_exists, register_new_user, bind, select, insert, cache_clear, modify,
    ret, emit; rewrite Hr; simpl.
  replace (table_rows (db w) USERS_TABLE) with (users (db w)) by reflexivity.
  rewrite Hnil; simpl; rewrite Hw.
  destruct rem; simpl; eexists _, _; (split; [reflexivity|]);
    (split; [reflexivity|]); (split; [reflexivity|]); (split; [reflexivity|]);
    (apply login_submit_found with (r := [("user_id", u); ("email", e)]);
     [apply String.eqb_neq, Hu | exact Hr | apply in_or_app; right; now left | reflexivity]).
Qed.

Lemma register_then_login_witness :
  let w := Views.registered_world in
  "Ada1815" <> "" /\ "ada@example.com" <> "" /\ is_valid_email "ada@example.com" = true /\
  read_ok (db w) = true /\ write_ok (db w) = true /\
  (forall r, In r (users (db w)) -> dget "user_id" r <> Some "Ada1815") /\
  exists w' out,
    registration_submit "Ada1815" "ada@example.com" true w = Done RegLoggedIn w' out /\
    users (db w') = users (db w) ++ [[("user_id", "Ada1815"); ("email", "ada@example.com")]] /\
    cache w' = [] /\ logged_in_user w' = Some "Ada1815" /\
    exists w'' out', login_submit "Ada1815" (set_user w' None) = Done LoginOk w'' out' /\
                     logged_in_user w'' = Some "Ada1815".
Proof.
  intros w.
  assert (H1 : "Ada1815" <> "") by discriminate.
  assert (H2 : "ada@example.com" <> "") by discriminate.
  assert (H3 : is_valid_email "ada@example.com" = true) by reflexivity.
  assert (H4 : read_ok (db w) = true) by reflexivity.
  assert (H5 : write_ok (db w) = true) by reflexivity.
  assert (H6 : forall r, In r (users (db w)) -> dget "user_id" r <> Some "Ada1815")
    by (intros r [<-|[]]; discriminate).
  do 6 (split; [assumption|]).
  exact (register_then_login "Ada1815" "ada@example.com" true w H1 H2 H3 H4 H5 H6).
Defined.

(** *** The sidebar history *)

Lemma insert_desc_hd y x l :
  String.leb x y = true -> HdRel (fun a b => String.leb b a = true) y l ->
  HdRel (fun a b => String.leb b a = true) y (insert_desc x l).
Proof.
  intros Hxy Hd; destruct l as [|z l]; simpl; [now constructor|].
  destruct (String.leb z x); constructor; [exact Hxy|].
  now inversion Hd.
Qed.

Lemma insert_desc_sorted x l :
  Sorted (fun a b => String.leb b a = true) l ->
  Sorted (fun a b => String.leb b a = true) (insert_desc x l).
Proof.
  induction l as [|z l IH]; intros Hs; simpl; [now repeat constructor|].
  apply Sorted_inv in Hs as [Hs Hd].
  destruct (String.leb z x) eqn:Ezx.
  - constructor; [constructor; assumption | constructor; exact Ezx].
  - constructor; [now apply IH|].
    apply insert_desc_hd; [|exact Hd].
    destruct (String.leb_total x z) as [H|H]; [exact H|congruence].
Qed.

Lemma sorted_desc_sorted l : Sorted (fun a b => String.leb b a = true) (sorted_desc l).
Proof. induction l; simpl; [constructor | now apply insert_desc_sorted]. Qed.

Lemma insert_desc_perm x l : Permutation (insert_desc x l) (x :: l).
Proof.
  induction l as [|z l IH]; simpl; [reflexivity|].
  destruct (String.leb z x); [reflexivity|].
  transitivity (z :: x :: l); [now constructor | apply perm_swap].
Qed.

Lemma sorted_desc_perm l : Permutation (sorted_desc l) l.
Proof.
  induction l as [|x l IH]; simpl; [reflexivity|].
  rewrite insert_desc_perm; now constructor.
Qed.

Lemma unique_nodup l : NoDup (unique l).
Proof.
  induction l as [|x l IH]; simpl; constructor.
  - rewrite filter_In; intros [_ H]; rewrite String.eqb_refl in H; discriminate.
  - now apply NoDup_filter.
Qed.

Lemma filter_nonempty {A} (f : A -> bool) l x : In x l -> f x = true -> filter f l <> [].
Proof.
  intros Hin Hf E; assert (H : In x (filter f l)) by (apply filter_In; auto).
  rewrite E in H; exact H.
Qed.

Lemma sidebar_history_spec su df sel :
  exists dd out, forall w,
    sidebar_history su df sel w = Done dd w out /\
    match dd with
    | None => df_rows df = []
    | Some ds =>
        df_rows df <> [] /\
        NoDup ds /\ Sorted (fun a b => String.leb b a = true) ds /\
        forall d, In d ds <-> exists r, In r (df_rows df) /\ dget "date" r = Some d
    end.
Proof.
  unfold sidebar_history; cbv zeta.
  destruct (df_empty df) eqn:Ee.
  - exists None, [WText "No daily entries yet."]; intros w; split; [reflexivity|].
    unfold df_empty in Ee; destruct (df_rows df); [reflexivity|discriminate].
  - assert (Hp : NoDup (sorted_desc (unique (column "date" df))) /\
                 Sorted (fun a b => String.leb b a = true) (sorted_desc (unique (column "date" df))) /\
                 forall d, In d (sorted_desc (unique (column "date" df))) <->
                           exists r, In r (df_rows df) /\ dget "date" r = Some d).
    { split; [|split].
      - eapply Permutation_NoDup; [symmetry; apply sorted_desc_perm | apply unique_nodup].
      - apply sorted_desc_sorted.
      - intros d; now rewrite In_sorted_desc, In_unique, In_column. }
    assert (Hne : df_rows df <> []) by (unfold df_empty in Ee; destruct (df_rows df); discriminate).
    destruct (sorted_desc (unique (column "date" df))) as [|d0 ds] eqn:Es.
    + exists (Some []), [WText "No daily entries yet."]; intros w; split; [reflexivity|].
      split; [exact Hne|exact Hp].
    + set (sd := nth sel (d0 :: ds) d0).
      assert (Hsd : exists r, In r (df_rows df) /\ dget "date" r = Some sd).
      { apply (proj2 (proj2 Hp)).
        unfold sd; destruct (Nat.lt_ge_cases sel (List.length (d0 :: ds))).
        - now apply nth_In.
        - rewrite nth_overflow by assumption; now left. }
      destruct Hsd as (r & Hr & Hrd).
      destruct (String.eqb sd "").
      * exists (Some (d0 :: ds)), [WSelectbox (d0 :: ds)]; intros w; split; [reflexivity|].
        split; [exact Hne|exact Hp].
      * destruct (filter (date_is sd) (df_rows (if su then df else drop_column "user_id" df)))
          as [|r1 rs] eqn:Ef.
        { exfalso. destruct su.
          - refine (filter_nonempty _ _ r Hr _ Ef).
            unfold date_is; rewrite Hrd; apply String.eqb_refl.
          - refine (filter_nonempty _ _ (filter (fun kv => negb (String.eqb "user_id" (fst kv))) r)
                      (in_map _ _ _ Hr) _ Ef).
            unfold date_is; rewrite dget_drop, Hrd; simpl; apply String.eqb_refl. }
        exists (Some (d0 :: ds)), [WSelectbox (d0 :: ds); WFields ["g1"; "r1"]]; intros w.
        unfold bind, emit, ret; simpl.
        split; [reflexivity|]. split; [exact Hne|exact Hp].
Qed.


(** *** The already-submitted guards *)

(** A regular user with an entry dated today: the sidebar's dates
    contain today, and the daily tab then shows today's entry instead of
    the form, and changes nothing, whatever the form's inputs. *)
Theorem daily_tab_after_todays_entry user today_str df sel inp w :
  (exists r, In r (df_rows df) /\ dget "date" r = Some today_str) ->
  exists ds out, sidebar_history false df sel w = Done (Some ds) w out /\
    tab_daily false user today_str df (Some ds) inp w =
      Done tt w [WText "What 3 things are you grateful for today?";
                 WText "You've already submitted your gratitude for today!";
                 WDataframe TodayEntry ["g1"; "r1"; "g2"; "r2"; "g3"; "r3"]].
Proof.
  intros (r & Hr & Hd).
  destruct (sidebar_history_spec false df sel) as (dd & out & H).
  destruct (H w) as [Hw Hp]; clear H.
  destruct dd as [ds|]; [|rewrite Hp in Hr; contradiction].
  destruct Hp as (_ & _ & Hin).
  assert (Ht : In today_str ds) by (apply Hin; eauto).
  exists ds, out; split; [exact Hw|].
  unfold tab_daily, bind, emit, ret.
  assert (Hs : has_submitted_today today_str (Some ds) = true).
  { unfold has_submitted_today; destruct ds as [|d0 ds]; [contradiction|].
    apply existsb_exists; exists today_str; split; [exact Ht | apply String.eqb_refl]. }
  rewrite Hs.
  destruct (filter (date_is today_str) (df_rows df)) eqn:Ef.
  - exfalso; refine (filter_nonempty _ _ r Hr _ Ef).
    unfold date_is; rewrite Hd; apply String.eqb_refl.
  - reflexivity.
Qed.

Lemma daily_tab_after_todays_entry_witness :
  let df := DataFrame [Views.sarah ++ [("date", "2024-06-03")]] in
  (exists r, In r (df_rows df) /\ dget "date" r = Some "2024-06-03") /\
  exists ds out, sidebar_history false df 0 Views.daily_world = Done (Some ds) Views.daily_world out /\
    tab_daily false "Sarah9012" "2024-06-03" df (Some ds)
      {| ui_login := None; ui_register := None; ui_logout := false; ui_select := 0;
         ui_daily := Some Views.sarah_input; ui_weekly := None |} Views.daily_world =
      Done tt Views.daily_world
        [WText "What 3 things are you grateful for today?";
         WText "You've already submitted your gratitude for today!";
         WDataframe TodayEntry ["g1"; "r1"; "g2"; "r2"; "g3"; "r3"]].
Proof.
  intros df.
  assert (H : exists r, In r (df_rows df) /\ dget "date" r = Some "2024-06-03")
    by (eexists; split; [now left | reflexivity]).
  split; [exact H | exact (daily_tab_after_todays_entry "Sarah9012" "2024-06-03" df 0 _ _ H)].
Defined.

Lemma get_week_start_valid d :
  Dates.valid_date d ->
  get_week_start d = Some (Dates.isoformat (d - (Dates.isoweekday d - 1))%Z).
Proof.
  intros Hd; unfold get_week_start, Dates.get_week_start, Dates.week_start.
  pose proof (DateFacts.week_start_in_range d Hd) as Hr.
  unfold Dates.valid_date in Hd.
  rewrite DateFacts.date_sub_days_ok by lia; reflexivity.
Qed.

(** A regular user who already has a letter for the current week: the
    weekly tab shows it instead of the form and changes nothing,
    whatever was typed. *)
Theorem weekly_tab_after_this_weeks_letter user today df inp w r :
  Dates.valid_date today -> In r (df_rows df) ->
  dget "week_start" r = Some (Dates.isoformat (today - (Dates.isoweekday today - 1))%Z) ->
  tab_weekly false user today df inp w =
    Done tt w [WText "Weekly Reflection"; WText "Writing reflection for the week starting";
               WText "You have already submitted a weekly letter"; WText "Your Submission:";
               WFields ["letter_content"]; WText "Weekly Letter History";
               WDataframe (UserRows WEEKLY_TABLE) (df_cols (drop_column "user_id" df))].
Proof.
  intros Hd Hr Hws.
  unfold tab_weekly; rewrite (get_week_start_valid today Hd).
  set (ws := Dates.isoformat (today - (Dates.isoweekday today - 1))%Z) in *.
  assert (Hne : df_empty df = false)
    by (unfold df_empty; destruct (df_rows df); [contradiction|reflexivity]).
  rewrite Hne.
  assert (Hin : existsb (String.eqb ws) (unique (column "week_start" df)) = true).
  { apply existsb_exists; exists ws; split; [|apply String.eqb_refl].
    rewrite In_unique, In_column; eauto. }
  rewrite Hin.
  destruct (filter (week_is ws) (df_rows df)) eqn:Ef.
  - exfalso; refine (filter_nonempty _ _ r Hr _ Ef).
    unfold week_is; rewrite Hws; apply String.eqb_refl.
  - reflexivity.
Qed.

Lemma weekly_tab_after_this_weeks_letter_witness :
  let today := Dates.ymd2ord 2024 6 5 in
  let r := [("user_id", "Sarah9012"); ("week_start", "2024-06-03"); ("letter_content", "hi")] in
  Dates.valid_date today /\ In r (df_rows (DataFrame [r])) /\
  dget "week_start" r = Some (Dates.isoformat (today - (Dates.isoweekday today - 1))%Z) /\
  tab_weekly false "Sarah9012" today (DataFrame [r])
    {| ui_login := None; ui_register := None; ui_logout := false; ui_select := 0;
       ui_daily := None; ui_weekly := Some "another letter" |} Views.daily_world =
    Done tt Views.daily_world
      [WText "Weekly Reflection"; WText "Writing reflection for the week starting";
       WText "You have already submitted a weekly letter"; WText "Your Submission:";
       WFields ["letter_content"]; WText "Weekly Letter History";
       WDataframe (UserRows WEEKLY_TABLE) (df_cols (drop_column "user_id" (DataFrame [r])))].
Proof.
  intros today r.
  assert (H1 : Dates.valid_date today) by (unfold Dates.valid_date, today; vm_compute; split; discriminate).
  assert (H2 : In r (df_rows (DataFrame [r]))) by (now left).
  assert (H3 : dget "week_start" r = Some (Dates.isoformat (today - (Dates.isoweekday today - 1))%Z))
    by (vm_compute; reflexivity).
  split; [exact H1|]. split; [exact H2|]. split; [exact H3|].
  exact (weekly_tab_after_this_weeks_letter "Sarah9012" today (DataFrame [r]) _ _ r H1 H2 H3).
Defined.

(** The weekly form handler: with no letter yet for the current week, an
    empty letter only warns and changes nothing; a non-empty one, while
    the backend accepts writes, appends one [weekly_letters] row whose
    [week_start] is the ISO date of this week's Monday, clears the read
    cache and ends the run with [st.rerun()], the other tables and the
    session untouched. *)
Theorem weekly_letter_submit user today df inp w content :
  Dates.valid_date today ->
  (forall r, In r (df_rows df) ->
     dget "week_start" r <> Some (Dates.isoformat (today - (Dates.isoweekday today - 1))%Z)) ->
  ui_weekly inp = Some content ->
  (content = "" ->
     exists out, tab_weekly false user today df inp w = Done tt w out /\
                 In (WText "Please write something for your weekly letter.") out) /\
  (content <> "" -> write_ok (db w) = true ->
     exists w' out, tab_weekly false user today df inp w = Stop StopRerun w' out /\
       weekly (db w') = weekly (db w) ++
         [[("user_id", user);
           ("week_start", Dates.isoformat (today - (Dates.isoweekday today - 1))%Z);
           ("letter_content", content)]] /\
       daily (db w') = daily (db w) /\ users (db w') = users (db w) /\
       cache w' = [] /\ logged_in_user w' = logged_in_user w).
Proof.
  intros Hd Hno Hin.
  unfold tab_weekly; rewrite (get_week_start_valid today Hd), Hin.
  set (ws := Dates.isoformat (today - (Dates.isoweekday today - 1))%Z) in *.
  assert (Hnot : existsb (String.eqb ws)
                   (if df_empty df then [] else unique (column "week_start" df)) = false).
  { destruct (df_empty df); [reflexivity|].
    apply Bool.not_true_iff_false; intros H.
    apply existsb_exists in H as (x & Hx & Ex); apply String.eqb_eq in Ex; subst x.
    apply In_unique, In_column in Hx as (r & Hr & Hrw); exact (Hno r Hr Hrw). }
  rewrite Hnot; split.
  - intros ->; unfold bind, emit, ret; simpl.
    destruct (df_empty df); simpl; eexists; split; try reflexivity;
      right; right; right; now left.
  - intros Hc Hw; apply String.eqb_neq in Hc; rewrite Hc.
    unfold save_weekly_letter, insert_to_supabase, insert, cache_clear, bind, emit, ret,
      modify, st_rerun; rewrite Hw; simpl.
    eexists _, _; split; [reflexivity|]; repeat split; reflexivity.
Qed.

Lemma weekly_letter_submit_witness :
  let today := Dates.ymd2ord 2024 6 5 in
  let inp := {| ui_login := None; ui_register := None; ui_logout := false; ui_select := 0;
                ui_daily := None; ui_weekly := Some "a calm week" |} in
  Dates.valid_date today /\
  (forall r, In r (df_rows (DataFrame [])) ->
     dget "week_start" r <> Some (Dates.isoformat (today - (Dates.isoweekday today - 1))%Z)) /\
  ui_weekly inp = Some "a calm week" /\
  ("a calm week" = "" ->
     exists out, tab_weekly false "Sarah9012" today (DataFrame []) inp Views.daily_world =
                   Done tt Views.daily_world out /\
                 In (WText "Please write something for your weekly letter.") out) /\
  ("a calm week" <> "" -> write_ok (db Views.daily_world) = true ->
     exists w' out, tab_weekly false "Sarah9012" today (DataFrame []) inp Views.daily_world =
                      Stop StopRerun w' out /\
       weekly (db w') = weekly (db Views.daily_world) ++
         [[("user_id", "Sarah9012");
           ("week_start", Dates.isoformat (today - (Dates.isoweekday today - 1))%Z);
           ("letter_content", "a calm week")]] /\
       daily (db w') = daily (db Views.daily_world) /\
       users (db w') = users (db Views.daily_world) /\
       cache w' = [] /\ logged_in_user w' = logged_in_user Views.daily_world).
Proof.
  intros today inp.
  assert (H1 : Dates.valid_date today) by (unfold Dates.valid_date, today; vm_compute; split; discriminate).
  assert (H2 : forall r, In r (df_rows (DataFrame [])) ->
     dget "week_start" r <> Some (Dates.isoformat (today - (Dates.isoweekday today - 1))%Z))
    by (intros r []).
  assert (H3 : ui_weekly inp = Some "a calm week") by reflexivity.
  split; [exact H1|]. split; [exact H2|]. split; [exact H3|].
  exact (weekly_letter_submit "Sarah9012" today (DataFrame []) inp Views.daily_world
           "a calm week" H1 H2 H3).
Defined.

(** *** The superuser's page *)

Lemma read_only_refl w : read_only_from w w.
Proof. split; [reflexivity|]. exists []; split; [now rewrite app_nil_r | reflexivity]. Qed.

Lemma keeps_ro_select w0 t flt : keeps (read_only_from w0) (select t flt).
Proof.
  intros w (Hdb & cs & Hc & Hs).
  assert (H : read_only_from w0 (log_call w (CSelect t flt))).
  { split; [exact Hdb|]. exists (cs ++ [CSelect t flt]); split.
    - simpl; rewrite Hc, app_assoc; reflexivity.
    - rewrite forallb_app, Hs; reflexivity. }
  unfold select; destruct (read_ok (db w)); exact H.
Qed.

Lemma keeps_ro_load_user w0 t u : keeps (read_only_from w0) (load_user_data t u).
Proof.
  unfold load_user_data; apply keeps_cached; [intros w c Hw; exact Hw|].
  repeat (first [apply keeps_ro_select | keeps_step]).
Qed.

Lemma keeps_ro_load_all w0 t : keeps (read_only_from w0) (load_all_data t).
Proof.
  unfold load_all_data; apply keeps_cached; [intros w c Hw; exact Hw|].
  repeat (first [apply keeps_ro_select | keeps_step]).
Qed.

(** The superuser's page only reads: whatever the inputs (also a daily
    or weekly submission), a run sends no insert and leaves the tables as
    they were, and the page shows neither form. *)
Theorem superuser_page_read_only sec today user inp w :
  is_superuser sec user = true ->
  read_only_from w (world_of (main_page sec today user inp w)) /\
  ~ In WDailyForm (outputs (main_page sec today user inp w)) /\
  ~ In WWeeklyForm (outputs (main_page sec today user inp w)).
Proof.
  intros Hsu.
  assert (Hk : keeps (read_only_from w) (main_page sec today user inp)).
  { unfold main_page; cbv zeta; rewrite Hsu.
    repeat (first
      [ apply keeps_ro_load_user
      | apply keeps_ro_load_all
      | keeps_step
      | progress unfold sidebar_history, tab_daily, tab_weekly, cache_clear ]);
      intros ? Hw; exact Hw. }
  assert (He : emits_only (fun x => x <> WDailyForm /\ x <> WWeeklyForm)
                 (main_page sec today user inp)).
  { unfold main_page; cbv zeta; rewrite Hsu.
    eo_page; split; discriminate. }
  split; [exact (Hk w (read_only_refl w))|].
  specialize (He w); rewrite Forall_forall in He.
  split; intros H; apply He in H as [H1 H2]; auto.
Qed.

Lemma superuser_page_read_only_witness :
  let inp := {| ui_login := None; ui_register := None; ui_logout := false; ui_select := 0;
                ui_daily := Some Views.sarah_input; ui_weekly := Some "letter" |} in
  is_superuser Views.admin_secrets "admin" = true /\
  read_only_from Views.empty_world
    (world_of (main_page Views.admin_secrets (Dates.ymd2ord 2024 6 5) "admin" inp Views.empty_world)) /\
  ~ In WDailyForm (outputs (main_page Views.admin_secrets (Dates.ymd2ord 2024 6 5) "admin" inp Views.empty_world)) /\
  ~ In WWeeklyForm (outputs (main_page Views.admin_secrets (Dates.ymd2ord 2024 6 5) "admin" inp Views.empty_world)).
Proof.
  intros inp.
  assert (H : is_superuser Views.admin_secrets "admin" = true) by reflexivity.
  split; [exact H | exact (superuser_page_read_only _ _ _ inp Views.empty_world H)].
Defined.

(** *** The reminder checkbox *)

(** The "Enable daily email reminders" checkbox only changes a message:
    registration returns the same outcome and leaves the same world
    whether it is ticked or not, so nothing of it is stored; ticked, a
    successful registration shows one message more, at the end. *)
Theorem reminder_checkbox_not_stored u e w :
  run_state (registration_submit u e true w) = run_state (registration_submit u e false w) /\
  outputs (registration_submit u e true w) =
    outputs (registration_submit u e false w) ++
    match fst (run_state (registration_submit u e false w)) with
    | Some RegLoggedIn => [WText "Email reminder preference saved"]
    | _ => []
    end.
Proof.
  unfold registration_submit.
  destruct (String.eqb u "" || String.eqb e "");
    [unfold bind, emit, ret; simpl; split; reflexivity|].
  destruct (negb (is_valid_email e));
    [unfold bind, emit, ret; simpl; split; reflexivity|].
  unfold check_user_exists, register_new_user, bind, select, insert, cache_clear, modify,
    ret, emit; simpl.
  destruct (read_ok (db w)); simpl;
    [destruct (0 <? List.length (filter (eq_filter (Some ("user_id", u)))
                                  (table_rows (db w) USERS_TABLE)))%nat; simpl;
     [split; reflexivity|] |];
    destruct (write_ok (db w)); simpl; split; reflexivity.
Qed.

(** A registration whose insert the backend refuses, for a username
    that is not taken or whose lookup fails: the outcome is a store
    failure, the error is shown, the session stays as it was and the
    users table is unchanged; the checkbox message is not shown. *)
Theorem registration_store_failure u e rem w :
  u <> "" -> e <> "" -> is_valid_email e = true -> write_ok (db w) = false ->
  (read_ok (db w) = false \/ forall r, In r (users (db w)) -> dget "user_id" r <> Some u) ->
  exists w', registration_submit u e rem w =
               Done RegStoreFailure w' [WText "Critical error during user registration"] /\
             db w' = db w /\ logged_in_user w' = logged_in_user w /\ cache w' = cache w.
Proof.
  intros Hu He Hv Hw Hnew.
  unfold registration_submit.
  apply String.eqb_neq in Hu, He; rewrite Hu, He, Hv; simpl.
  assert (Hex : exists w1, check_user_exists u w = Done false w1 [] /\
                           w1 = log_call w (CSelect USERS_TABLE (Some ("user_id", u)))).
  { unfold check_user_exists, bind, select, ret.
    destruct (read_ok (db w)) eqn:Hr; simpl; [|eexists; split; reflexivity].
    destruct Hnew as [Hf|Hnew]; [discriminate|].
    assert (Hnil : filter (eq_filter (Some ("user_id", u))) (users (db w)) = []).
    { destruct (filter (eq_filter (Some ("user_id", u))) (users (db w))) as [|r rs] eqn:Ef;
        [reflexivity|].
      assert (In r (filter (eq_filter (Some ("user_id", u))) (users (db w)))) as Hf
        by (rewrite Ef; now left).
      apply filter_In in Hf as [Hin Hid]; simpl in Hid.
      destruct (dget "user_id" r) eqn:Ed; [|discriminate].
      apply String.eqb_eq in Hid; subst; exfalso; exact (Hnew r Hin Ed). }
    replace (table_rows (db w) USERS_TABLE) with (users (db w)) by reflexivity.
    rewrite Hnil; eexists; split; reflexivity. }
  destruct Hex as (w1 & Hc & ->).
  unfold bind at 1; rewrite Hc.
  unfold register_new_user, bind, insert, ret, emit; simpl; rewrite Hw; simpl.
  eexists; repeat split; reflexivity.
Qed.

(** The witness: the backend answers no read and refuses writes, so the
    username lookup fails as well. *)
Lemma registration_store_failure_witness :
  let w := {| db := {| users := [Views.sarah]; daily := []; weekly := [];
                       read_ok := false; write_ok := false |};
              cache := []; calls := []; logged_in_user := None |} in
  "Sarah9012" <> "" /\ "sarah@example.com" <> "" /\ is_valid_email "sarah@example.com" = true /\
  write_ok (db w) = false /\
  (read_ok (db w) = false \/ forall r, In r (users (db w)) -> dget "user_id" r <> Some "Sarah9012") /\
  exists w', registration_submit "Sarah9012" "sarah@example.com" true w =
               Done RegStoreFailure w' [WText "Critical error during user registration"] /\
             db w' = db w /\ logged_in_user w' = logged_in_user w /\ cache w' = cache w.
Proof.
  intros w.
  assert (H1 : "Sarah9012" <> "") by discriminate.
  assert (H2 : "sarah@example.com" <> "") by discriminate.
  assert (H3 : is_valid_email "sarah@example.com" = true) by reflexivity.
  assert (H4 : write_ok (db w) = false) by reflexivity.
  assert (H5 : read_ok (db w) = false \/
               forall r, In r (users (db w)) -> dget "user_id" r <> Some "Sarah9012")
    by (left; reflexivity).
  do 5 (split; [assumption|]).
  exact (registration_store_failure "Sarah9012" "sarah@example.com" true w H1 H2 H3 H4 H5).
Defined.

End AppExtra.

Module ReminderExtra.
Import Reminder Inputs.
Local Open Scope list_scope.

(** Rate limiting: in the loop over [user_df], each email sent is
    followed at once by a half-second pause, so no two Mailjet requests
    are sent back to back. *)
Theorem send_followed_by_sleep rows pre em u post :
  send_loop rows = pre ++ ESend em u :: post -> exists post', post = ESleep :: post'.
Proof.
  unfold send_loop; revert pre; induction rows as [|r rows IH]; intros pre H.
  - destruct pre; discriminate.
  - simpl in H; unfold loop_body in H at 1.
    destruct (r_email r) as [email|], (r_user_id r) as [username|];
      try (destruct pre as [|x pre]; simpl in H; [discriminate|];
           injection H as _ H; exact (IH pre H)).
    destruct pre as [|x [|y pre]]; simpl in H.
    + injection H as _ _ <-; eauto.
    + discriminate.
    + injection H as _ _ H; exact (IH pre H).
Qed.

Lemma send_followed_by_sleep_witness :
  send_loop users_ABC =
    [ESend "a@x" "A"; ESleep] ++ ESend "b@x" "B" :: [ESleep; ESend "c@x" "C"; ESleep] /\
  exists post', [ESleep; ESend "c@x" "C"; ESleep] = ESleep :: post'.
Proof.
  assert (H : send_loop users_ABC =
    [ESend "a@x" "A"; ESleep] ++ ESend "b@x" "B" :: [ESleep; ESend "c@x" "C"; ESleep])
    by reflexivity.
  split; [exact H | exact (send_followed_by_sleep _ _ _ _ _ H)].
Defined.

End ReminderExtra.
